(** * moarchiving.get_archive: the archive factory functions

    A shallow embedding of [src/moarchiving/get_archive.py]: the two factory
    functions [get_mo_archive] and [get_cmo_archive], which resolve the number
    of objectives from partial inputs, cache the hypervolume float types as
    attributes of the factory function itself, and hand a validated
    configuration to the archive class of the matching dimension.

    Python effects are made explicit: the module globals and the function
    attributes are a state that is threaded through every call, [warnings.warn]
    appends to a log, and [raise] aborts the call (the state written so far
    stays, as in Python). *)

From Stdlib Require Import ZArith List String Bool Lia DecimalString.
Import ListNotations.

Open Scope string_scope.
Open Scope Z_scope.

(** ** Process state: module globals and function attributes *)

(** The two values the attributes can hold: [fractions.Fraction] and the
    builtin [float]. *)
Inductive float_type : Type :=
| Fraction
| float.

(** The two function objects that carry attributes. *)
Inductive func_obj : Type :=
| F_get_mo_archive
| F_get_cmo_archive.

(** The two attribute names used by the module. *)
Inductive attr_name : Type :=
| hypervolume_final_float_type
| hypervolume_computation_float_type.

(** Attribute dictionary of one function object ([None]: attribute not set). *)
Record func_attrs : Type := FuncAttrs {
  final_attr : option float_type;
  computation_attr : option float_type
}.

(** [fractions_bound] says whether the module-level [import fractions]
    succeeded, that is whether the global name [fractions] is bound. *)
Record globals : Type := Globals {
  fractions_bound : bool;
  mo_attrs : func_attrs;
  cmo_attrs : func_attrs
}.

Definition attrs_of (f : func_obj) (g : globals) : func_attrs :=
  match f with
  | F_get_mo_archive => mo_attrs g
  | F_get_cmo_archive => cmo_attrs g
  end.

Definition lookup_attr (a : attr_name) (d : func_attrs) : option float_type :=
  match a with
  | hypervolume_final_float_type => final_attr d
  | hypervolume_computation_float_type => computation_attr d
  end.

Definition update_attr (a : attr_name) (v : float_type) (d : func_attrs)
  : func_attrs :=
  match a with
  | hypervolume_final_float_type =>
      FuncAttrs (Some v) (computation_attr d)
  | hypervolume_computation_float_type =>
      FuncAttrs (final_attr d) (Some v)
  end.

Definition with_attrs (f : func_obj) (d : func_attrs) (g : globals) : globals :=
  match f with
  | F_get_mo_archive => Globals (fractions_bound g) d (cmo_attrs g)
  | F_get_cmo_archive => Globals (fractions_bound g) (mo_attrs g) d
  end.

(** ** Exceptions and the effect monad *)

Inductive exn : Type :=
| ValueError (msg : string)
| TypeError (msg : string)
| NameError (msg : string)
| AttributeError (msg : string).

(** What a computation leaves behind: the state, the warnings emitted in
    order, and either the raised exception or the returned value. *)
Record outcome (A : Type) : Type := Outcome {
  state_after : globals;
  warnings : list string;
  result : exn + A
}.
Arguments Outcome {A} _ _ _.
Arguments state_after {A} _.
Arguments warnings {A} _.
Arguments result {A} _.

Definition M (A : Type) : Type := globals -> outcome A.

Definition ret {A} (a : A) : M A := fun g => Outcome g [] (inr a).

Definition bind {A B} (m : M A) (k : A -> M B) : M B :=
  fun g =>
    match result (m g) with
    | inl e => Outcome (state_after (m g)) (warnings (m g)) (inl e)
    | inr a =>
        let o := k a (state_after (m g)) in
        Outcome (state_after o) (warnings (m g) ++ warnings o)%list (result o)
    end.

Definition raise {A} (e : exn) : M A := fun g => Outcome g [] (inl e).

(** [_warnings.warn(msg)] *)
Definition warn (msg : string) : M unit := fun g => Outcome g [msg] (inr tt).

(** [try: body except: handler] with a bare [except], which catches every
    exception. *)
Definition try_except {A} (body handler : M A) : M A :=
  fun g =>
    match result (body g) with
    | inl _ =>
        let o := handler (state_after (body g)) in
        Outcome (state_after o) (warnings (body g) ++ warnings o)%list (result o)
    | inr a => body g
    end.

Declare Scope py_scope.
Delimit Scope py_scope with py.
Notation "x <- m ;; k" := (bind m (fun x => k))
  (at level 61, m at next level, right associativity) : py_scope.
Notation "m ;; k" := (bind m (fun _ => k))
  (at level 61, right associativity) : py_scope.
Open Scope py_scope.

(** [hasattr(f, a)] *)
Definition hasattr (f : func_obj) (a : attr_name) : M bool :=
  fun g =>
    Outcome g []
      (inr match lookup_attr a (attrs_of f g) with Some _ => true | None => false end).

(** [f.a] read as an expression. *)
Definition getattr (f : func_obj) (a : attr_name) : M float_type :=
  fun g =>
    match lookup_attr a (attrs_of f g) with
    | Some v => Outcome g [] (inr v)
    | None => Outcome g [] (inl (AttributeError "function object has no such attribute"))
    end.

(** [f.a = v] *)
Definition setattr (f : func_obj) (a : attr_name) (v : float_type) : M unit :=
  fun g => Outcome (with_attrs f (update_attr a v (attrs_of f g)) g) [] (inr tt).

(** The expression [fractions.Fraction]: a [NameError] when the import at the
    top of the module failed. *)
Definition fractions_Fraction : M float_type :=
  fun g =>
    if fractions_bound g then Outcome g [] (inr Fraction)
    else Outcome g [] (inl (NameError "name 'fractions' is not defined")).

(** The module body, lines 9-13: the import is attempted once, a warning is
    emitted when it fails, and no function attribute exists yet. *)
Definition module_init (fractions_installed : bool) : outcome unit :=
  let g := Globals fractions_installed (FuncAttrs None None) (FuncAttrs None None) in
  if fractions_installed then Outcome g [] (inr tt)
  else Outcome g
         ["`fractions` module not installed, arbitrary precision hypervolume computation not available"]
         (inr tt).

(** ** Python builtins used by the factories *)

(** [str] of an integer, as an f-string formats it. *)
Definition str (n : Z) : string := NilZero.string_of_int (Z.to_int n).

(** An f-string: the concatenation of its pieces. *)
Definition fstring (pieces : list string) : string := String.concat "" pieces.

(** [len] of a list, as a Python integer. *)
Definition len {A} (l : list A) : Z := Z.of_nat (List.length l).

(** [len] of an optional argument: [len(None)] raises [TypeError]. *)
Definition len_opt {A} (l : option (list A)) : M Z :=
  match l with
  | Some l => ret (len l)
  | None => raise (TypeError "object of type 'NoneType' has no len()")
  end.

Definition is_None {A} (o : option A) : bool :=
  match o with None => true | Some _ => false end.

(** [l is None or len(l) == 0] *)
Definition is_None_or_empty {A} (l : option (list A)) : bool :=
  match l with
  | None => true
  | Some l => len l =? 0
  end.

(** ** The factory functions *)

Section Factories.

(** [num]: the numbers held in objective vectors, constraint vectors, the
    reference point and [tau]; [info]: the per-solution annotations.  The
    factories never inspect either. *)
Context {num info : Type}.

(** The archive classes are imported from sibling modules; a factory's return
    value is the constructor call it makes, with the arguments it passes. *)
Inductive archive : Type :=
| MOArchive2d (list_of_f_vals : option (list (list num)))
    (reference_point : option (list num)) (infos : option (list info))
    (final_float_type computation_float_type : float_type)
| MOArchive3d (list_of_f_vals : option (list (list num)))
    (reference_point : option (list num)) (infos : option (list info))
    (final_float_type computation_float_type : float_type)
| MOArchive4d (list_of_f_vals : option (list (list num)))
    (reference_point : option (list num)) (infos : option (list info))
    (final_float_type computation_float_type : float_type)
| CMOArchive (list_of_f_vals list_of_g_vals : option (list (list num)))
    (reference_point : option (list num)) (infos : option (list info))
    (n_obj : Z) (tau : num)
    (final_float_type computation_float_type : float_type).

(** The three messages built with f-strings in both factories. *)
Definition msg_reference_point_mismatch (len_ref len_f0 : Z) : string :=
  fstring ["n_obj ("; str len_ref; ") does not match the number of ";
           "objectives in the first element of list_of_f_vals ";
           "("; str len_f0; ")"].

Definition msg_n_obj_vs_f_vals (n_obj len_f0 : Z) : string :=
  fstring ["n_obj ("; str n_obj; ") does not match the number of objectives in ";
           "list_of_f_vals ("; str len_f0; ")"].

Definition msg_n_obj_vs_reference_point (n_obj len_ref : Z) : string :=
  fstring ["n_obj ("; str n_obj; ") does not match the number of objectives in ";
           "reference_point ("; str len_ref; ")"].

Definition msg_unsupported (n_obj : Z) : string :=
  fstring ["Unsupported number of objectives: "; str n_obj].

(** [get_mo_archive(list_of_f_vals=None, reference_point=None, infos=None,
    n_obj=None)], lines 16-85.  An argument left at its default is [None].
    The test [list_of_f_vals is not None and len(list_of_f_vals) > 0] is the
    pattern [Some (f0 :: _)], whose [f0] is [list_of_f_vals[0]]. *)
Definition get_mo_archive
    (list_of_f_vals : option (list (list num)))
    (reference_point : option (list num))
    (infos : option (list info))
    (n_obj : option Z) : M archive :=
  (* lines 30-34 *)
  (b <- hasattr F_get_mo_archive hypervolume_final_float_type ;;
   if negb b then
     try_except
       (v <- fractions_Fraction ;;
        setattr F_get_mo_archive hypervolume_final_float_type v)
       (setattr F_get_mo_archive hypervolume_final_float_type float)
   else ret tt) ;;
  (* lines 35-39 *)
  (b <- hasattr F_get_mo_archive hypervolume_computation_float_type ;;
   if negb b then
     try_except
       (v <- fractions_Fraction ;;
        setattr F_get_mo_archive hypervolume_computation_float_type v)
       (setattr F_get_mo_archive hypervolume_computation_float_type float)
   else ret tt) ;;
  (* lines 41-42 *)
  let n_obj :=
    if is_None_or_empty list_of_f_vals && is_None n_obj && is_None reference_point
    then Some 2 else n_obj in
  (* lines 44-48 *)
  n_obj <- match n_obj with
           | None =>
               match list_of_f_vals with
               | Some (f0 :: _) => ret (len f0)
               | _ => len_opt reference_point
               end
           | Some n => ret n
           end ;;
  (* lines 52-70 *)
  n_obj <- match list_of_f_vals, reference_point with
           | Some (f0 :: _), Some r =>
               if negb (len r =? len f0) then
                 raise (ValueError (msg_reference_point_mismatch (len r) (len f0)))
               else if negb (n_obj =? len f0) then
                 warn (msg_n_obj_vs_f_vals n_obj (len f0)) ;;
                 ret (len f0)
               else ret n_obj
           | Some (f0 :: _), None =>
               if negb (n_obj =? len f0) then
                 warn (msg_n_obj_vs_f_vals n_obj (len f0)) ;;
                 ret (len f0)
               else ret n_obj
           | _, Some r =>
               if negb (n_obj =? len r) then
                 warn (msg_n_obj_vs_reference_point n_obj (len r)) ;;
                 ret (len r)
               else ret n_obj
           | _, None => ret n_obj
           end ;;
  (* lines 72-85 *)
  if n_obj =? 2 then
    final <- getattr F_get_mo_archive hypervolume_final_float_type ;;
    computation <- getattr F_get_mo_archive hypervolume_computation_float_type ;;
    ret (MOArchive2d list_of_f_vals reference_point infos final computation)
  else if n_obj =? 3 then
    final <- getattr F_get_mo_archive hypervolume_final_float_type ;;
    computation <- getattr F_get_mo_archive hypervolume_computation_float_type ;;
    ret (MOArchive3d list_of_f_vals reference_point infos final computation)
  else if n_obj =? 4 then
    final <- getattr F_get_mo_archive hypervolume_final_float_type ;;
    computation <- getattr F_get_mo_archive hypervolume_computation_float_type ;;
    ret (MOArchive4d list_of_f_vals reference_point infos final computation)
  else raise (ValueError (msg_unsupported n_obj)).

(** [get_cmo_archive(list_of_f_vals=None, list_of_g_vals=None,
    reference_point=None, infos=None, n_obj=None, tau=1)], lines 88-157.
    A caller that leaves [tau] out passes its default, 1. *)
Definition get_cmo_archive
    (list_of_f_vals list_of_g_vals : option (list (list num)))
    (reference_point : option (list num))
    (infos : option (list info))
    (n_obj : option Z) (tau : num) : M archive :=
  (* lines 105-109 *)
  (b <- hasattr F_get_cmo_archive hypervolume_final_float_type ;;
   if negb b then
     try_except
       (v <- fractions_Fraction ;;
        setattr F_get_cmo_archive hypervolume_final_float_type v)
       (setattr F_get_cmo_archive hypervolume_final_float_type float)
   else ret tt) ;;
  (* lines 110-114 *)
  (b <- hasattr F_get_cmo_archive hypervolume_computation_float_type ;;
   if negb b then
     try_except
       (v <- fractions_Fraction ;;
        setattr F_get_cmo_archive hypervolume_computation_float_type v)
       (setattr F_get_cmo_archive hypervolume_computation_float_type float)
   else ret tt) ;;
  (* lines 116-117 *)
  let n_obj :=
    if is_None_or_empty list_of_f_vals && is_None n_obj && is_None reference_point
    then Some 2 else n_obj in
  (* lines 119-123 *)
  n_obj <- match n_obj with
           | None =>
               match list_of_f_vals with
               | Some (f0 :: _) => ret (len f0)
               | _ => len_opt reference_point
               end
           | Some n => ret n
           end ;;
  (* lines 127-145 *)
  n_obj <- match list_of_f_vals, reference_point with
           | Some (f0 :: _), Some r =>
               if negb (len r =? len f0) then
                 raise (ValueError (msg_reference_point_mismatch (len r) (len f0)))
               else if negb (n_obj =? len f0) then
                 warn (msg_n_obj_vs_f_vals n_obj (len f0)) ;;
                 ret (len f0)
               else ret n_obj
           | Some (f0 :: _), None =>
               if negb (n_obj =? len f0) then
                 warn (msg_n_obj_vs_f_vals n_obj (len f0)) ;;
                 ret (len f0)
               else ret n_obj
           | _, Some r =>
               if negb (n_obj =? len r) then
                 warn (msg_n_obj_vs_reference_point n_obj (len r)) ;;
                 ret (len r)
               else ret n_obj
           | _, None => ret n_obj
           end ;;
  (* lines 147-152 *)
  (if is_None list_of_f_vals && negb (is_None list_of_g_vals) then
     raise (ValueError "list_of_f_vals must be provided if list_of_g_vals is provided")
   else ret tt) ;;
  (if negb (is_None list_of_f_vals) && is_None list_of_g_vals then
     raise (ValueError "list_of_g_vals must be provided if list_of_f_vals is provided")
   else ret tt) ;;
  (match list_of_f_vals, list_of_g_vals with
   | Some fs, Some gs =>
       if negb (len fs =? len gs) then
         raise (ValueError "list_of_f_vals and list_of_g_vals must have the same length")
       else ret tt
   | _, _ => ret tt
   end) ;;
  (* lines 154-157 *)
  final <- getattr F_get_cmo_archive hypervolume_final_float_type ;;
  computation <- getattr F_get_cmo_archive hypervolume_computation_float_type ;;
  ret (CMOArchive list_of_f_vals list_of_g_vals reference_point infos n_obj tau
         final computation).

(** ** The blocks the two factories are made of

    The factories are written out in full above.  The blocks below name their
    parts, so that statements can speak of the resolved number of objectives;
    [get_mo_archive_blocks] and [get_cmo_archive_blocks] show that each
    factory is the sequence of its blocks. *)

(** Lines 30-34 and 35-39 (105-109 and 110-114), for function object [f] and
    attribute [a]. *)
Definition cache_float_type (f : func_obj) (a : attr_name) : M unit :=
  b <- hasattr f a ;;
  if negb b then
    try_except (v <- fractions_Fraction ;; setattr f a v) (setattr f a float)
  else ret tt.

Definition cache_float_types (f : func_obj) : M unit :=
  cache_float_type f hypervolume_final_float_type ;;
  cache_float_type f hypervolume_computation_float_type.

(** Lines 41-48 (116-123): the default and the derivation of [n_obj]. *)
Definition derive_n_obj
    (list_of_f_vals : option (list (list num)))
    (reference_point : option (list num))
    (n_obj : option Z) : M Z :=
  let n_obj :=
    if is_None_or_empty list_of_f_vals && is_None n_obj && is_None reference_point
    then Some 2 else n_obj in
  match n_obj with
  | None =>
      match list_of_f_vals with
      | Some (f0 :: _) => ret (len f0)
      | _ => len_opt reference_point
      end
  | Some n => ret n
  end.

(** Lines 52-70 (127-145): [n_obj] checked against the data. *)
Definition reconcile_n_obj
    (list_of_f_vals : option (list (list num)))
    (reference_point : option (list num))
    (n_obj : Z) : M Z :=
  match list_of_f_vals, reference_point with
  | Some (f0 :: _), Some r =>
      if negb (len r =? len f0) then
        raise (ValueError (msg_reference_point_mismatch (len r) (len f0)))
      else if negb (n_obj =? len f0) then
        warn (msg_n_obj_vs_f_vals n_obj (len f0)) ;;
        ret (len f0)
      else ret n_obj
  | Some (f0 :: _), None =>
      if negb (n_obj =? len f0) then
        warn (msg_n_obj_vs_f_vals n_obj (len f0)) ;;
        ret (len f0)
      else ret n_obj
  | _, Some r =>
      if negb (n_obj =? len r) then
        warn (msg_n_obj_vs_reference_point n_obj (len r)) ;;
        ret (len r)
      else ret n_obj
  | _, None => ret n_obj
  end.

(** Lines 41-70 (116-145): the value of [n_obj] when line 72 (147) is
    reached. *)
Definition resolve_n_obj
    (list_of_f_vals : option (list (list num)))
    (reference_point : option (list num))
    (n_obj : option Z) : M Z :=
  n <- derive_n_obj list_of_f_vals reference_point n_obj ;;
  reconcile_n_obj list_of_f_vals reference_point n.

(** Lines 72-85: the choice of the archive class by [n_obj]. *)
Definition dispatch_mo_archive
    (list_of_f_vals : option (list (list num)))
    (reference_point : option (list num))
    (infos : option (list info))
    (n_obj : Z) : M archive :=
  if n_obj =? 2 then
    final <- getattr F_get_mo_archive hypervolume_final_float_type ;;
    computation <- getattr F_get_mo_archive hypervolume_computation_float_type ;;
    ret (MOArchive2d list_of_f_vals reference_point infos final computation)
  else if n_obj =? 3 then
    final <- getattr F_get_mo_archive hypervolume_final_float_type ;;
    computation <- getattr F_get_mo_archive hypervolume_computation_float_type ;;
    ret (MOArchive3d list_of_f_vals reference_point infos final computation)
  else if n_obj =? 4 then
    final <- getattr F_get_mo_archive hypervolume_final_float_type ;;
    computation <- getattr F_get_mo_archive hypervolume_computation_float_type ;;
    ret (MOArchive4d list_of_f_vals reference_point infos final computation)
  else raise (ValueError (msg_unsupported n_obj)).

(** Lines 147-152: the pairing of objective and constraint vectors. *)
Definition check_pairing
    (list_of_f_vals list_of_g_vals : option (list (list num))) : M unit :=
  (if is_None list_of_f_vals && negb (is_None list_of_g_vals) then
     raise (ValueError "list_of_f_vals must be provided if list_of_g_vals is provided")
   else ret tt) ;;
  (if negb (is_None list_of_f_vals) && is_None list_of_g_vals then
     raise (ValueError "list_of_g_vals must be provided if list_of_f_vals is provided")
   else ret tt) ;;
  (match list_of_f_vals, list_of_g_vals with
   | Some fs, Some gs =>
       if negb (len fs =? len gs) then
         raise (ValueError "list_of_f_vals and list_of_g_vals must have the same length")
       else ret tt
   | _, _ => ret tt
   end).

(** Lines 154-157: the one constructor call of the constrained factory. *)
Definition construct_cmo_archive
    (list_of_f_vals list_of_g_vals : option (list (list num)))
    (reference_point : option (list num))
    (infos : option (list info))
    (n_obj : Z) (tau : num) : M archive :=
  final <- getattr F_get_cmo_archive hypervolume_final_float_type ;;
  computation <- getattr F_get_cmo_archive hypervolume_computation_float_type ;;
  ret (CMOArchive list_of_f_vals list_of_g_vals reference_point infos n_obj tau
         final computation).

(** The float types an archive was built with. *)
Definition float_types_of (a : archive) : float_type * float_type :=
  match a with
  | MOArchive2d _ _ _ final computation
  | MOArchive3d _ _ _ final computation
  | MOArchive4d _ _ _ final computation
  | CMOArchive _ _ _ _ _ _ final computation => (final, computation)
  end.

End Factories.

Arguments archive : clear implicits.

(** ** Notions used to state the properties *)

Section Model.

Context {num info : Type}.

Implicit Types (g : globals) (f : func_obj).
Implicit Types (list_of_f_vals list_of_g_vals : option (list (list num))).
Implicit Types (reference_point : option (list num)).
Implicit Types (infos : option (list info)) (tau : num).

(** What [fractions.Fraction] inside [try ... except: float] evaluates to. *)
Definition resolved_float_type g : float_type :=
  if fractions_bound g then Fraction else float.

(** An attribute after lines 30-34: kept when it was set, resolved when it
    was not. *)
Definition cached_attr g (old : option float_type) : option float_type :=
  match old with
  | Some v => Some v
  | None => Some (resolved_float_type g)
  end.

(** Both attributes of a function object after lines 30-39. *)
Definition cached_attrs g (d : func_attrs) : func_attrs :=
  FuncAttrs (cached_attr g (final_attr d)) (cached_attr g (computation_attr d)).

(** State in which [get_mo_archive] and [get_cmo_archive] leave the process:
    only the attributes of the called function can change, and only the ones
    that were not set. *)
Definition cached f g : globals := with_attrs f (cached_attrs g (attrs_of f g)) g.

(** What lines 72-85 return or raise, given the two attribute values. *)
Definition choose_mo_archive list_of_f_vals reference_point infos (n_obj : Z)
    (final computation : float_type) : exn + archive num info :=
  if n_obj =? 2 then
    inr (MOArchive2d list_of_f_vals reference_point infos final computation)
  else if n_obj =? 3 then
    inr (MOArchive3d list_of_f_vals reference_point infos final computation)
  else if n_obj =? 4 then
    inr (MOArchive4d list_of_f_vals reference_point infos final computation)
  else inl (ValueError (msg_unsupported n_obj)).

(** The data a declared [n_obj] is compared with: the length of the first
    objective vector when the list of vectors is non-empty and a reference
    point, if present, has that same length; the length of the reference
    point when the list of vectors is absent or empty. *)
Definition observed_n_obj list_of_f_vals reference_point : option Z :=
  match list_of_f_vals with
  | Some (f0 :: _) =>
      match reference_point with
      | Some r => if len r =? len f0 then Some (len f0) else None
      | None => Some (len f0)
      end
  | _ =>
      match reference_point with
      | Some r => Some (len r)
      | None => None
      end
  end.

(** The warning of lines 58, 63 and 68. *)
Definition msg_n_obj_overridden list_of_f_vals (declared observed : Z) : string :=
  if is_None_or_empty list_of_f_vals
  then msg_n_obj_vs_reference_point declared observed
  else msg_n_obj_vs_f_vals declared observed.

(** Both lists given with the same number of entries, or neither given. *)
Definition paired list_of_f_vals list_of_g_vals : Prop :=
  match list_of_f_vals, list_of_g_vals with
  | None, None => True
  | Some fs, Some gs => List.length fs = List.length gs
  | _, _ => False
  end.

(** Exactly one of the two lists given, or both with different numbers of
    entries. *)
Definition pairing_violated list_of_f_vals list_of_g_vals : Prop :=
  match list_of_f_vals, list_of_g_vals with
  | None, Some _ => True
  | Some _, None => True
  | Some fs, Some gs => List.length fs <> List.length gs
  | None, None => False
  end.

(** The message of the first of the three checks of lines 147-152 that
    fires. *)
Definition pairing_message list_of_f_vals list_of_g_vals : string :=
  match list_of_f_vals, list_of_g_vals with
  | None, _ => "list_of_f_vals must be provided if list_of_g_vals is provided"
  | Some _, None => "list_of_g_vals must be provided if list_of_f_vals is provided"
  | Some _, Some _ => "list_of_f_vals and list_of_g_vals must have the same length"
  end.

(** The value of [n_obj] after line 48 when the argument [n_obj] is [None]. *)
Definition derived_n_obj list_of_f_vals reference_point : Z :=
  match list_of_f_vals with
  | Some (f0 :: _) => len f0
  | _ =>
      match reference_point with
      | Some r => len r
      | None => 2
      end
  end.

(** C7 as it is worded: with no declared [n_obj], the count is the length of
    the first vector when the list of vectors is non-empty, and the length of
    the reference point otherwise. *)
Definition derives_as_stated list_of_f_vals reference_point g : Prop :=
  exists n,
    result (derive_n_obj list_of_f_vals reference_point None g) = inr n /\
    match list_of_f_vals with
    | Some (f0 :: _) => n = len f0
    | _ => exists r, reference_point = Some r /\ n = len r
    end.

(** One call of a factory, with its arguments. *)
Inductive call : Type :=
| Call_get_mo_archive
    (list_of_f_vals : option (list (list num)))
    (reference_point : option (list num))
    (infos : option (list info)) (n_obj : option Z)
| Call_get_cmo_archive
    (list_of_f_vals list_of_g_vals : option (list (list num)))
    (reference_point : option (list num))
    (infos : option (list info)) (n_obj : option Z) (tau : num).

Definition callee (c : call) : func_obj :=
  match c with
  | Call_get_mo_archive _ _ _ _ => F_get_mo_archive
  | Call_get_cmo_archive _ _ _ _ _ _ => F_get_cmo_archive
  end.

Definition run_call (c : call) : M (archive num info) :=
  match c with
  | Call_get_mo_archive list_of_f_vals reference_point infos n_obj =>
      get_mo_archive list_of_f_vals reference_point infos n_obj
  | Call_get_cmo_archive list_of_f_vals list_of_g_vals reference_point infos
      n_obj tau =>
      get_cmo_archive list_of_f_vals list_of_g_vals reference_point infos n_obj tau
  end.

(** The calls of a process one after the other: each starts in the state the
    previous one left, whether that one returned or raised. *)
Fixpoint run_calls (cs : list call) g : globals :=
  match cs with
  | [] => g
  | c :: cs => run_calls cs (state_after (run_call c g))
  end.

(** The state with the global [fractions] bound or not, all else equal. *)
Definition with_fractions (b : bool) g : globals :=
  Globals b (mo_attrs g) (cmo_attrs g).

(** The arguments of a call that the resolution of [n_obj] looks at. *)
Definition call_f_vals (c : call) : option (list (list num)) :=
  match c with
  | Call_get_mo_archive list_of_f_vals _ _ _ => list_of_f_vals
  | Call_get_cmo_archive list_of_f_vals _ _ _ _ _ => list_of_f_vals
  end.

Definition call_reference_point (c : call) : option (list num) :=
  match c with
  | Call_get_mo_archive _ reference_point _ _ => reference_point
  | Call_get_cmo_archive _ _ reference_point _ _ _ => reference_point
  end.

Definition call_n_obj (c : call) : option Z :=
  match c with
  | Call_get_mo_archive _ _ _ n_obj => n_obj
  | Call_get_cmo_archive _ _ _ _ n_obj _ => n_obj
  end.

(** The number of objectives of the archive built: fixed by the class for the
    three unconstrained archives, the [n_obj] argument for [CMOArchive]. *)
Definition dimension_of (a : archive num info) : Z :=
  match a with
  | MOArchive2d _ _ _ _ _ => 2
  | MOArchive3d _ _ _ _ _ => 3
  | MOArchive4d _ _ _ _ _ => 4
  | CMOArchive _ _ _ _ n_obj _ _ _ => n_obj
  end.

(** The float type an archive was given for attribute [a]. *)
Definition float_type_of (a : attr_name) (x : archive num info) : float_type :=
  match a with
  | hypervolume_final_float_type => fst (float_types_of x)
  | hypervolume_computation_float_type => snd (float_types_of x)
  end.

(** A non-empty list of objective vectors and a reference point whose length
    is not that of the first vector. *)
Definition conflicting list_of_f_vals reference_point : Prop :=
  exists (f0 : list num) rest r,
    list_of_f_vals = Some (f0 :: rest) /\ reference_point = Some r /\
    List.length r <> List.length f0.

(** The warnings of a call, read off its arguments. *)
Definition expected_warnings list_of_f_vals reference_point (n_obj : option Z)
  : list string :=
  match n_obj, observed_n_obj list_of_f_vals reference_point with
  | Some declared, Some observed =>
      if declared =? observed then []
      else [msg_n_obj_overridden list_of_f_vals declared observed]
  | _, _ => []
  end.

(** In a process whose state is only ever changed by the factories, each
    factory has either none of its two attributes or both, and then both are
    the type the import made available. *)
Definition uniform (b : bool) g : Prop :=
  fractions_bound g = b /\
  forall f,
    attrs_of f g = FuncAttrs None None \/
    attrs_of f g = FuncAttrs (Some (if b then Fraction else float))
                     (Some (if b then Fraction else float)).

End Model.

Arguments call : clear implicits.

(** The state right after the module is imported. *)
Definition fresh_process (fractions_installed : bool) : globals :=
  state_after (module_init fractions_installed).

(** ** Running the blocks *)

Section Blocks.

Context {num info : Type}.

Implicit Types (g : globals) (f : func_obj) (a : attr_name).
Implicit Types (list_of_f_vals list_of_g_vals : option (list (list num))).
Implicit Types (reference_point : option (list num)).
Implicit Types (infos : option (list info)) (tau : num).

Lemma bind_assoc {A B C} (m : M A) (k : A -> M B) (h : B -> M C) g :
  bind (bind m k) h g = bind m (fun x => bind (k x) h) g.
Proof.
  unfold bind. destruct (result (m g)) as [e|x]; cbn; [reflexivity|].
  destruct (result (k x (state_after (m g)))) as [e|y]; cbn;
    rewrite ?app_assoc; reflexivity.
Qed.

Lemma bind_ext {A B} (m : M A) (k k' : A -> M B) g :
  (forall x g', k x g' = k' x g') -> bind m k g = bind m k' g.
Proof.
  intros E. unfold bind. destruct (result (m g)); [reflexivity|].
  rewrite E. reflexivity.
Qed.

Lemma get_mo_archive_blocks list_of_f_vals reference_point infos n_obj g :
  get_mo_archive list_of_f_vals reference_point infos n_obj g
  = (cache_float_types F_get_mo_archive ;;
     n <- resolve_n_obj list_of_f_vals reference_point n_obj ;;
     dispatch_mo_archive list_of_f_vals reference_point infos n) g.
Proof.
  unfold get_mo_archive, cache_float_types, resolve_n_obj.
  etransitivity; [|symmetry; apply bind_assoc].
  apply bind_ext; intros _ g1.
  apply bind_ext; intros _ g2.
  etransitivity; [|symmetry; apply bind_assoc].
  reflexivity.
Qed.

Lemma get_cmo_archive_blocks
    list_of_f_vals list_of_g_vals reference_point infos n_obj tau g :
  get_cmo_archive list_of_f_vals list_of_g_vals reference_point infos n_obj tau g
  = (cache_float_types F_get_cmo_archive ;;
     n <- resolve_n_obj list_of_f_vals reference_point n_obj ;;
     check_pairing list_of_f_vals list_of_g_vals ;;
     construct_cmo_archive list_of_f_vals list_of_g_vals reference_point infos
       n tau) g.
Proof.
  unfold get_cmo_archive, cache_float_types, resolve_n_obj.
  etransitivity; [|symmetry; apply bind_assoc].
  apply bind_ext; intros _ g1.
  apply bind_ext; intros _ g2.
  etransitivity; [|symmetry; apply bind_assoc].
  unfold derive_n_obj. apply bind_ext; intros n g3.
  unfold reconcile_n_obj. apply bind_ext; intros n' g4.
  unfold check_pairing.
  etransitivity; [|symmetry; apply bind_assoc].
  apply bind_ext; intros _ g5.
  etransitivity; [|symmetry; apply bind_assoc].
  reflexivity.
Qed.

(** *** The float-type cache *)

Lemma cache_float_types_run f g :
  cache_float_types f g
  = Outcome (with_attrs f (cached_attrs g (attrs_of f g)) g) [] (inr tt).
Proof.
  destruct g as [b [mf mc] [cf cc]].
  destruct f, b, mf, mc, cf, cc; reflexivity.
Qed.

Lemma with_attrs_same f g : with_attrs f (attrs_of f g) g = g.
Proof. destruct f, g; reflexivity. Qed.

Lemma attrs_of_with_attrs f d g : attrs_of f (with_attrs f d g) = d.
Proof. destruct f; reflexivity. Qed.

Lemma attrs_of_with_attrs_other f f' d g :
  f <> f' -> attrs_of f' (with_attrs f d g) = attrs_of f' g.
Proof. destruct f, f'; intros N; try reflexivity; contradiction. Qed.

Lemma cached_attrs_set g fin comp :
  cached_attrs g (FuncAttrs (Some fin) (Some comp)) = FuncAttrs (Some fin) (Some comp).
Proof. reflexivity. Qed.

Lemma cached_attrs_both g d :
  exists fin comp, cached_attrs g d = FuncAttrs (Some fin) (Some comp).
Proof.
  destruct d as [[fin|] [comp|]]; unfold cached_attrs; cbn; eauto.
Qed.

(** *** The resolution of [n_obj] neither reads nor writes the state *)

Lemma derive_n_obj_pure list_of_f_vals reference_point n_obj g g' :
  derive_n_obj list_of_f_vals reference_point n_obj g'
  = Outcome g' (warnings (derive_n_obj list_of_f_vals reference_point n_obj g))
      (result (derive_n_obj list_of_f_vals reference_point n_obj g)).
Proof.
  unfold derive_n_obj.
  destruct list_of_f_vals as [[|f0 rest]|], n_obj, reference_point; reflexivity.
Qed.

Lemma reconcile_n_obj_pure list_of_f_vals reference_point n g g' :
  reconcile_n_obj list_of_f_vals reference_point n g'
  = Outcome g' (warnings (reconcile_n_obj list_of_f_vals reference_point n g))
      (result (reconcile_n_obj list_of_f_vals reference_point n g)).
Proof.
  unfold reconcile_n_obj.
  destruct list_of_f_vals as [[|f0 rest]|], reference_point as [r|];
    repeat match goal with
           | |- context [if negb ?c then _ else _] => destruct c; cbn [negb]
           end; reflexivity.
Qed.

Lemma resolve_n_obj_pure list_of_f_vals reference_point n_obj g g' :
  resolve_n_obj list_of_f_vals reference_point n_obj g'
  = Outcome g' (warnings (resolve_n_obj list_of_f_vals reference_point n_obj g))
      (result (resolve_n_obj list_of_f_vals reference_point n_obj g)).
Proof.
  unfold resolve_n_obj, bind.
  rewrite (derive_n_obj_pure _ _ _ g g'). cbn [result state_after warnings].
  destruct (result (derive_n_obj list_of_f_vals reference_point n_obj g)) as [e|n];
    [reflexivity|].
  rewrite (reconcile_n_obj_pure _ _ n g g').
  rewrite (reconcile_n_obj_pure _ _ n g (state_after _)).
  reflexivity.
Qed.

Lemma resolve_n_obj_state list_of_f_vals reference_point n_obj g :
  state_after (resolve_n_obj list_of_f_vals reference_point n_obj g) = g.
Proof. rewrite (resolve_n_obj_pure _ _ _ g g). reflexivity. Qed.

Lemma check_pairing_pure list_of_f_vals list_of_g_vals g g' :
  check_pairing list_of_f_vals list_of_g_vals g'
  = Outcome g' [] (result (check_pairing list_of_f_vals list_of_g_vals g)).
Proof.
  unfold check_pairing.
  destruct list_of_f_vals as [fs|], list_of_g_vals as [gs|]; try reflexivity.
  unfold bind; cbn. destruct (len fs =? len gs); reflexivity.
Qed.

(** *** The constructor calls, once both attributes are set *)

Lemma dispatch_mo_archive_run list_of_f_vals reference_point infos n g fin comp :
  mo_attrs g = FuncAttrs (Some fin) (Some comp) ->
  dispatch_mo_archive list_of_f_vals reference_point infos n g
  = Outcome g [] (choose_mo_archive list_of_f_vals reference_point infos n fin comp).
Proof.
  intros E. destruct g as [b d c]. cbn in E. subst d.
  unfold dispatch_mo_archive, choose_mo_archive.
  destruct (n =? 2); [reflexivity|].
  destruct (n =? 3); [reflexivity|].
  destruct (n =? 4); reflexivity.
Qed.

Lemma construct_cmo_archive_run
    list_of_f_vals list_of_g_vals reference_point infos n tau g fin comp :
  cmo_attrs g = FuncAttrs (Some fin) (Some comp) ->
  construct_cmo_archive list_of_f_vals list_of_g_vals reference_point infos n tau g
  = Outcome g []
      (inr (CMOArchive list_of_f_vals list_of_g_vals reference_point infos n tau
              fin comp)).
Proof.
  intros E. destruct g as [b d c]. cbn in E. subst c. reflexivity.
Qed.

(** *** The factories, run *)

Lemma get_mo_archive_run list_of_f_vals reference_point infos n_obj g fin comp :
  mo_attrs (cached F_get_mo_archive g) = FuncAttrs (Some fin) (Some comp) ->
  get_mo_archive list_of_f_vals reference_point infos n_obj g
  = Outcome (cached F_get_mo_archive g)
      (warnings (resolve_n_obj list_of_f_vals reference_point n_obj g))
      (match result (resolve_n_obj list_of_f_vals reference_point n_obj g) with
       | inl e => inl e
       | inr n => choose_mo_archive list_of_f_vals reference_point infos n fin comp
       end).
Proof.
  intros E. rewrite get_mo_archive_blocks.
  unfold bind at 1. rewrite cache_float_types_run.
  cbn [result state_after warnings app]. fold (cached F_get_mo_archive g).
  unfold bind.
  rewrite (resolve_n_obj_pure _ _ _ g (cached F_get_mo_archive g)).
  cbn [result state_after warnings].
  destruct (result (resolve_n_obj list_of_f_vals reference_point n_obj g)) as [e|n];
    [reflexivity|].
  rewrite (dispatch_mo_archive_run _ _ _ _ _ fin comp E).
  cbn [result state_after warnings]. rewrite app_nil_r. reflexivity.
Qed.

Lemma get_cmo_archive_run
    list_of_f_vals list_of_g_vals reference_point infos n_obj tau g fin comp :
  cmo_attrs (cached F_get_cmo_archive g) = FuncAttrs (Some fin) (Some comp) ->
  get_cmo_archive list_of_f_vals list_of_g_vals reference_point infos n_obj tau g
  = Outcome (cached F_get_cmo_archive g)
      (warnings (resolve_n_obj list_of_f_vals reference_point n_obj g))
      (match result (resolve_n_obj list_of_f_vals reference_point n_obj g) with
       | inl e => inl e
       | inr n =>
           match result (check_pairing list_of_f_vals list_of_g_vals g) with
           | inl e => inl e
           | inr _ =>
               inr (CMOArchive list_of_f_vals list_of_g_vals reference_point
                      infos n tau fin comp)
           end
       end).
Proof.
  intros E. rewrite get_cmo_archive_blocks.
  unfold bind at 1. rewrite cache_float_types_run.
  cbn [result state_after warnings app]. fold (cached F_get_cmo_archive g).
  unfold bind.
  rewrite (resolve_n_obj_pure _ _ _ g (cached F_get_cmo_archive g)).
  cbn [result state_after warnings].
  destruct (result (resolve_n_obj list_of_f_vals reference_point n_obj g)) as [e|n];
    [reflexivity|].
  rewrite (check_pairing_pure _ _ g (cached F_get_cmo_archive g)).
  cbn [result state_after warnings].
  destruct (result (check_pairing list_of_f_vals list_of_g_vals g)) as [e|[]];
    cbn [result state_after warnings]; rewrite ?app_nil_r; [reflexivity|].
  rewrite (construct_cmo_archive_run _ _ _ _ _ _ _ fin comp E).
  cbn [result state_after warnings]. rewrite app_nil_r. reflexivity.
Qed.

Lemma cached_attrs_of f g :
  exists fin comp, attrs_of f (cached f g) = FuncAttrs (Some fin) (Some comp).
Proof.
  unfold cached. rewrite attrs_of_with_attrs. apply cached_attrs_both.
Qed.

End Blocks.

(** ** Properties of the resolution of [n_obj] *)

Section Resolution.

Context {num : Type}.

Implicit Types (g : globals) (r : list num) (rest : list (list num)).
Implicit Types (list_of_f_vals : option (list (list num))).
Implicit Types (reference_point : option (list num)).

Lemma len_inj {A} (l l' : list A) : len l = len l' -> List.length l = List.length l'.
Proof. unfold len. lia. Qed.

Lemma is_None_or_empty_cases list_of_f_vals :
  is_None_or_empty list_of_f_vals = true ->
  list_of_f_vals = None \/ list_of_f_vals = Some [].
Proof.
  destruct list_of_f_vals as [[|f0 rest]|]; cbn; auto. discriminate.
Qed.

(** A non-empty list of vectors and a reference point of another length:
    the [ValueError] of line 54, whatever [n_obj] was given. *)
Lemma resolve_n_obj_mismatch (f0 : list num) rest r n_obj g :
  List.length r <> List.length f0 ->
  resolve_n_obj (Some (f0 :: rest)) (Some r) n_obj g
  = Outcome g []
      (inl (ValueError (msg_reference_point_mismatch (len r) (len f0)))).
Proof.
  intros N. assert (E : (len r =? len f0) = false).
  { apply Z.eqb_neq. intros E. apply N, len_inj, E. }
  unfold resolve_n_obj, derive_n_obj, reconcile_n_obj, bind.
  destruct n_obj as [n|]; cbn; rewrite E; reflexivity.
Qed.

(** A non-empty list of vectors, no conflicting reference point: the length
    of the first vector wins, with a warning when [n_obj] said otherwise. *)
Lemma resolve_n_obj_vectors (f0 : list num) rest reference_point n_obj g :
  match reference_point with
  | Some r => List.length r = List.length f0
  | None => True
  end ->
  resolve_n_obj (Some (f0 :: rest)) reference_point n_obj g
  = Outcome g
      match n_obj with
      | Some n => if n =? len f0 then [] else [msg_n_obj_vs_f_vals n (len f0)]
      | None => []
      end
      (inr (len f0)).
Proof.
  intros H.
  unfold resolve_n_obj, derive_n_obj, reconcile_n_obj, bind.
  destruct reference_point as [r|].
  - assert (E : (len r =? len f0) = true)
      by (apply Z.eqb_eq; unfold len; congruence).
    destruct n_obj as [n|]; cbn; rewrite E; cbn.
    + destruct (n =? len f0) eqn:En; cbn; [|reflexivity].
      apply Z.eqb_eq in En. subst n. reflexivity.
    + rewrite Z.eqb_refl. reflexivity.
  - destruct n_obj as [n|]; cbn.
    + destruct (n =? len f0) eqn:En; cbn; [|reflexivity].
      apply Z.eqb_eq in En. subst n. reflexivity.
    + rewrite Z.eqb_refl. reflexivity.
Qed.

(** No vector, a reference point: its length wins, with a warning when
    [n_obj] said otherwise. *)
Lemma resolve_n_obj_reference_point list_of_f_vals r n_obj g :
  is_None_or_empty list_of_f_vals = true ->
  resolve_n_obj list_of_f_vals (Some r) n_obj g
  = Outcome g
      match n_obj with
      | Some n => if n =? len r then [] else [msg_n_obj_vs_reference_point n (len r)]
      | None => []
      end
      (inr (len r)).
Proof.
  intros H. unfold resolve_n_obj, derive_n_obj, reconcile_n_obj, bind.
  destruct (is_None_or_empty_cases _ H) as [-> | ->];
    (destruct n_obj as [n|]; cbn;
     [ destruct (n =? len r) eqn:En; cbn; [|reflexivity];
       apply Z.eqb_eq in En; subst n; reflexivity
     | rewrite Z.eqb_refl; reflexivity ]).
Qed.

(** No vector, no reference point: the given [n_obj], or 2. *)
Lemma resolve_n_obj_nothing list_of_f_vals n_obj g :
  is_None_or_empty list_of_f_vals = true ->
  resolve_n_obj list_of_f_vals None n_obj g
  = Outcome g [] (inr match n_obj with Some n => n | None => 2 end).
Proof.
  intros H. unfold resolve_n_obj, derive_n_obj, reconcile_n_obj, bind.
  destruct (is_None_or_empty_cases _ H) as [-> | ->];
    destruct n_obj as [n|]; reflexivity.
Qed.

(** The only exception the resolution raises is the one of line 54; in
    particular the [len(reference_point)] of line 48 is never reached with
    [reference_point is None]. *)
Lemma resolve_n_obj_raises list_of_f_vals reference_point n_obj g e :
  result (resolve_n_obj list_of_f_vals reference_point n_obj g) = inl e ->
  exists f0 rest r,
    list_of_f_vals = Some (f0 :: rest) /\ reference_point = Some r /\
    List.length r <> List.length f0 /\
    e = ValueError (msg_reference_point_mismatch (len r) (len f0)).
Proof.
  destruct list_of_f_vals as [[|f0 rest]|].
  - destruct reference_point as [r|].
    + rewrite resolve_n_obj_reference_point by reflexivity. discriminate.
    + rewrite resolve_n_obj_nothing by reflexivity. discriminate.
  - destruct reference_point as [r|].
    + destruct (Nat.eq_dec (List.length r) (List.length f0)) as [E|N].
      * rewrite resolve_n_obj_vectors by exact E. discriminate.
      * rewrite resolve_n_obj_mismatch by exact N. cbn. intros [= <-].
        exists f0, rest, r. auto.
    + rewrite resolve_n_obj_vectors by exact I. discriminate.
  - destruct reference_point as [r|].
    + rewrite resolve_n_obj_reference_point by reflexivity. discriminate.
    + rewrite resolve_n_obj_nothing by reflexivity. discriminate.
Qed.

End Resolution.

(** ** The behaviour of the two entry points *)

Section EntryPoints.

Context {num info : Type}.

Implicit Types (g : globals) (r : list num) (rest : list (list num)).
Implicit Types (list_of_f_vals list_of_g_vals : option (list (list num))).
Implicit Types (reference_point : option (list num)).
Implicit Types (infos : option (list info)) (tau : num).

(** C1. A non-empty list of objective vectors together with a reference point
    whose length differs from the length of the first vector makes both
    [get_mo_archive] and [get_cmo_archive] raise the [ValueError] of lines 54
    and 129: the result is that exception, not an archive, and nothing was
    warned. *)
Theorem reference_point_mismatch_raises
    (f0 : list num) rest r list_of_g_vals infos n_obj tau g :
  List.length r <> List.length f0 ->
  get_mo_archive (Some (f0 :: rest)) (Some r) infos n_obj g
  = Outcome (cached F_get_mo_archive g) []
      (inl (ValueError (msg_reference_point_mismatch (len r) (len f0))))
  /\
  get_cmo_archive (Some (f0 :: rest)) list_of_g_vals (Some r) infos n_obj tau g
  = Outcome (cached F_get_cmo_archive g) []
      (inl (ValueError (msg_reference_point_mismatch (len r) (len f0)))).
Proof.
  intros N. split.
  - destruct (cached_attrs_of F_get_mo_archive g) as (fin & comp & E).
    rewrite (get_mo_archive_run _ _ _ _ _ fin comp E).
    rewrite resolve_n_obj_mismatch by exact N. reflexivity.
  - destruct (cached_attrs_of F_get_cmo_archive g) as (fin & comp & E).
    rewrite (get_cmo_archive_run _ _ _ _ _ _ _ fin comp E).
    rewrite resolve_n_obj_mismatch by exact N. reflexivity.
Qed.

(** C2. Whenever the resolution of [n_obj] in [get_mo_archive] yields [n],
    the call returns [MOArchive2d] for [n = 2], [MOArchive3d] for [n = 3],
    [MOArchive4d] for [n = 4], each built from the arguments as given and the
    two cached float types, and raises
    [ValueError("Unsupported number of objectives: n")] for every other [n]. *)
Theorem get_mo_archive_dispatch list_of_f_vals reference_point infos n_obj g n :
  result (resolve_n_obj list_of_f_vals reference_point n_obj g) = inr n ->
  exists fin comp,
    mo_attrs (state_after
                (get_mo_archive list_of_f_vals reference_point infos n_obj g))
    = FuncAttrs (Some fin) (Some comp) /\
    (n = 2 ->
     result (get_mo_archive list_of_f_vals reference_point infos n_obj g)
     = inr (MOArchive2d list_of_f_vals reference_point infos fin comp)) /\
    (n = 3 ->
     result (get_mo_archive list_of_f_vals reference_point infos n_obj g)
     = inr (MOArchive3d list_of_f_vals reference_point infos fin comp)) /\
    (n = 4 ->
     result (get_mo_archive list_of_f_vals reference_point infos n_obj g)
     = inr (MOArchive4d list_of_f_vals reference_point infos fin comp)) /\
    (n <> 2 -> n <> 3 -> n <> 4 ->
     result (get_mo_archive list_of_f_vals reference_point infos n_obj g)
     = inl (ValueError (msg_unsupported n))).
Proof.
  intros R.
  destruct (cached_attrs_of F_get_mo_archive g) as (fin & comp & E).
  exists fin, comp.
  rewrite (get_mo_archive_run _ _ _ _ _ fin comp E), R.
  cbn [state_after result]. split; [exact E|].
  unfold choose_mo_archive.
  repeat split; intros; subst; try reflexivity.
  repeat match goal with
         | H : ?n <> ?k |- _ => apply Z.eqb_neq in H; rewrite H
         end.
  reflexivity.
Qed.

(** C3. When an [n_obj] is declared and differs from the observed length (the
    first vector's, or else the reference point's), the resolution succeeds
    with exactly one warning and yields the observed length;
    [get_mo_archive] then is that warning followed by the dispatch on the
    observed length, and [get_cmo_archive] that warning followed by the pairing
    checks and the constructor call with the observed length. *)
Theorem declared_n_obj_overridden
    list_of_f_vals list_of_g_vals reference_point infos declared tau g observed :
  observed_n_obj list_of_f_vals reference_point = Some observed ->
  declared <> observed ->
  resolve_n_obj list_of_f_vals reference_point (Some declared) g
  = Outcome g [msg_n_obj_overridden list_of_f_vals declared observed]
      (inr observed)
  /\
  get_mo_archive list_of_f_vals reference_point infos (Some declared) g
  = (cache_float_types F_get_mo_archive ;;
     warn (msg_n_obj_overridden list_of_f_vals declared observed) ;;
     dispatch_mo_archive list_of_f_vals reference_point infos observed) g
  /\
  get_cmo_archive list_of_f_vals list_of_g_vals reference_point infos
    (Some declared) tau g
  = (cache_float_types F_get_cmo_archive ;;
     warn (msg_n_obj_overridden list_of_f_vals declared observed) ;;
     check_pairing list_of_f_vals list_of_g_vals ;;
     construct_cmo_archive list_of_f_vals list_of_g_vals reference_point infos
       observed tau) g.
Proof.
  intros O N.
  assert (R : forall g',
             resolve_n_obj list_of_f_vals reference_point (Some declared) g'
             = Outcome g' [msg_n_obj_overridden list_of_f_vals declared observed]
                 (inr observed)).
  { intros g'. apply Z.eqb_neq in N. unfold observed_n_obj in O.
    destruct list_of_f_vals as [[|f0 rest]|].
    - destruct reference_point as [r|]; [|discriminate].
      injection O as <-.
      rewrite resolve_n_obj_reference_point by reflexivity. rewrite N. reflexivity.
    - destruct reference_point as [r|].
      + destruct (len r =? len f0) eqn:E; [|discriminate].
        injection O as <-. apply Z.eqb_eq, len_inj in E.
        rewrite resolve_n_obj_vectors by exact E. rewrite N. reflexivity.
      + injection O as <-.
        rewrite resolve_n_obj_vectors by exact I. rewrite N. reflexivity.
    - destruct reference_point as [r|]; [|discriminate].
      injection O as <-.
      rewrite resolve_n_obj_reference_point by reflexivity. rewrite N. reflexivity. }
  split; [apply R|]. split.
  - rewrite get_mo_archive_blocks.
    apply bind_ext; intros _ g1. unfold bind. rewrite R. reflexivity.
  - rewrite get_cmo_archive_blocks.
    apply bind_ext; intros _ g1. unfold bind. rewrite R. reflexivity.
Qed.

(** *** The pairing of objective and constraint vectors *)

Lemma check_pairing_passes list_of_f_vals list_of_g_vals g :
  paired list_of_f_vals list_of_g_vals ->
  check_pairing list_of_f_vals list_of_g_vals g = Outcome g [] (inr tt).
Proof.
  destruct list_of_f_vals as [fs|], list_of_g_vals as [gs|]; cbn;
    try contradiction; [|reflexivity].
  intros E. unfold check_pairing, bind. cbn.
  replace (len fs =? len gs) with true; [reflexivity|].
  symmetry. apply Z.eqb_eq. unfold len. congruence.
Qed.

Lemma check_pairing_raises list_of_f_vals list_of_g_vals g :
  pairing_violated list_of_f_vals list_of_g_vals ->
  check_pairing list_of_f_vals list_of_g_vals g
  = Outcome g [] (inl (ValueError (pairing_message list_of_f_vals list_of_g_vals))).
Proof.
  destruct list_of_f_vals as [fs|], list_of_g_vals as [gs|]; cbn;
    try contradiction; try reflexivity.
  intros N. unfold check_pairing, bind. cbn.
  replace (len fs =? len gs) with false; [reflexivity|].
  symmetry. apply Z.eqb_neq. intros E. apply N, len_inj, E.
Qed.

Lemma paired_or_violated list_of_f_vals list_of_g_vals :
  paired list_of_f_vals list_of_g_vals \/
  pairing_violated list_of_f_vals list_of_g_vals.
Proof.
  destruct list_of_f_vals as [fs|], list_of_g_vals as [gs|]; cbn; auto.
  destruct (Nat.eq_dec (List.length fs) (List.length gs)); auto.
Qed.

(** C4, as the code has it.  With no vector (list absent or empty), no
    declared [n_obj] and no reference point, the resolution yields 2 without
    warning or exception; [get_mo_archive] returns [MOArchive2d] and raises
    nothing; [get_cmo_archive] goes on to the pairing checks with [n_obj = 2]:
    it returns [CMOArchive] built with [n_obj = 2] when they pass and raises
    their [ValueError] when they do not. *)
Theorem default_n_obj_is_two list_of_f_vals list_of_g_vals infos tau g :
  is_None_or_empty list_of_f_vals = true ->
  resolve_n_obj list_of_f_vals None None g = Outcome g [] (inr 2)
  /\
  (exists fin comp,
     get_mo_archive list_of_f_vals None infos None g
     = Outcome (cached F_get_mo_archive g) []
         (inr (MOArchive2d list_of_f_vals None infos fin comp)))
  /\
  (exists fin comp,
     get_cmo_archive list_of_f_vals list_of_g_vals None infos None tau g
     = Outcome (cached F_get_cmo_archive g) []
         (match result (check_pairing list_of_f_vals list_of_g_vals g) with
          | inl e => inl e
          | inr _ =>
              inr (CMOArchive list_of_f_vals list_of_g_vals None infos 2 tau
                     fin comp)
          end))
  /\
  (paired list_of_f_vals list_of_g_vals ->
   result (check_pairing list_of_f_vals list_of_g_vals g) = inr tt)
  /\
  (pairing_violated list_of_f_vals list_of_g_vals ->
   result (check_pairing list_of_f_vals list_of_g_vals g)
   = inl (ValueError (pairing_message list_of_f_vals list_of_g_vals))).
Proof.
  intros H.
  pose proof (resolve_n_obj_nothing list_of_f_vals None g H) as R.
  split; [exact R|]. split; [|split; [|split]].
  - destruct (cached_attrs_of F_get_mo_archive g) as (fin & comp & E).
    exists fin, comp. rewrite (get_mo_archive_run _ _ _ _ _ fin comp E), R.
    reflexivity.
  - destruct (cached_attrs_of F_get_cmo_archive g) as (fin & comp & E).
    exists fin, comp. rewrite (get_cmo_archive_run _ _ _ _ _ _ _ fin comp E), R.
    reflexivity.
  - intros P. rewrite check_pairing_passes by exact P. reflexivity.
  - intros V. rewrite check_pairing_raises by exact V. reflexivity.
Qed.

(** C5. When exactly one of [list_of_f_vals] and [list_of_g_vals] is given,
    or both are given with different lengths, [get_cmo_archive] raises a
    [ValueError].  The checks come after the resolution of [n_obj] and before
    the constructor call: when the resolution succeeds, its warnings have been
    emitted and the exception is the one of the pairing check; when the
    resolution raises, that exception is the one raised; and the whole call is
    the sequence cache, resolution, pairing checks, constructor call. *)
Theorem pairing_violation_raises
    list_of_f_vals list_of_g_vals reference_point infos n_obj tau g :
  pairing_violated list_of_f_vals list_of_g_vals ->
  (exists msg,
     result (get_cmo_archive list_of_f_vals list_of_g_vals reference_point infos
               n_obj tau g) = inl (ValueError msg))
  /\
  (forall n,
     result (resolve_n_obj list_of_f_vals reference_point n_obj g) = inr n ->
     get_cmo_archive list_of_f_vals list_of_g_vals reference_point infos n_obj tau g
     = Outcome (cached F_get_cmo_archive g)
         (warnings (resolve_n_obj list_of_f_vals reference_point n_obj g))
         (inl (ValueError (pairing_message list_of_f_vals list_of_g_vals))))
  /\
  (forall e,
     result (resolve_n_obj list_of_f_vals reference_point n_obj g) = inl e ->
     get_cmo_archive list_of_f_vals list_of_g_vals reference_point infos n_obj tau g
     = Outcome (cached F_get_cmo_archive g) [] (inl e))
  /\
  get_cmo_archive list_of_f_vals list_of_g_vals reference_point infos n_obj tau g
  = (cache_float_types F_get_cmo_archive ;;
     n <- resolve_n_obj list_of_f_vals reference_point n_obj ;;
     check_pairing list_of_f_vals list_of_g_vals ;;
     construct_cmo_archive list_of_f_vals list_of_g_vals reference_point infos
       n tau) g.
Proof.
  intros V.
  destruct (cached_attrs_of F_get_cmo_archive g) as (fin & comp & E).
  pose proof (get_cmo_archive_run list_of_f_vals list_of_g_vals reference_point
                infos n_obj tau g fin comp E) as Run.
  rewrite (check_pairing_raises _ _ g V) in Run. cbn [result] in Run.
  split; [|split; [|split]].
  - rewrite Run. cbn [result].
    destruct (result (resolve_n_obj list_of_f_vals reference_point n_obj g))
      as [e|n] eqn:R.
    + destruct (resolve_n_obj_raises _ _ _ _ _ R) as (f0 & rest & r & _ & _ & _ & ->).
      eauto.
    + eauto.
  - intros n R. rewrite Run, R. reflexivity.
  - intros e R. rewrite Run, R.
    destruct (resolve_n_obj_raises _ _ _ _ _ R) as (f0 & rest & r & -> & -> & N & _).
    rewrite resolve_n_obj_mismatch by exact N. reflexivity.
  - apply get_cmo_archive_blocks.
Qed.

(** The exception of line 85 is not among those [get_cmo_archive] raises. *)
Lemma get_cmo_archive_never_unsupported
    list_of_f_vals list_of_g_vals reference_point infos n_obj tau g k :
  result (get_cmo_archive list_of_f_vals list_of_g_vals reference_point infos
            n_obj tau g) <> inl (ValueError (msg_unsupported k)).
Proof.
  destruct (cached_attrs_of F_get_cmo_archive g) as (fin & comp & E).
  rewrite (get_cmo_archive_run _ _ _ _ _ _ _ fin comp E). cbn [result].
  destruct (result (resolve_n_obj list_of_f_vals reference_point n_obj g))
    as [e|n] eqn:R.
  - destruct (resolve_n_obj_raises _ _ _ _ _ R) as (f0 & rest & r & _ & _ & _ & ->).
    cbn. discriminate.
  - destruct (paired_or_violated list_of_f_vals list_of_g_vals) as [P|V].
    + rewrite check_pairing_passes by exact P. discriminate.
    + rewrite check_pairing_raises by exact V. cbn [result].
      destruct list_of_f_vals, list_of_g_vals; cbn; discriminate.
Qed.

(** C8. Whatever [n] the resolution yields, 2, 3, 4 or not, once the pairing
    checks pass [get_cmo_archive] returns the one [CMOArchive] call, with
    [n_obj = n]; and no call of [get_cmo_archive] raises the
    [ValueError("Unsupported number of objectives: ...")] of the unconstrained
    factory. *)
Theorem get_cmo_archive_any_n_obj
    list_of_f_vals list_of_g_vals reference_point infos n_obj tau g n :
  result (resolve_n_obj list_of_f_vals reference_point n_obj g) = inr n ->
  paired list_of_f_vals list_of_g_vals ->
  (exists fin comp,
     cmo_attrs (state_after
                  (get_cmo_archive list_of_f_vals list_of_g_vals reference_point
                     infos n_obj tau g))
     = FuncAttrs (Some fin) (Some comp) /\
     result (get_cmo_archive list_of_f_vals list_of_g_vals reference_point infos
               n_obj tau g)
     = inr (CMOArchive list_of_f_vals list_of_g_vals reference_point infos n tau
              fin comp))
  /\
  (forall k,
     result (get_cmo_archive list_of_f_vals list_of_g_vals reference_point infos
               n_obj tau g) <> inl (ValueError (msg_unsupported k))).
Proof.
  intros R P. split; [|intros k; apply get_cmo_archive_never_unsupported].
  destruct (cached_attrs_of F_get_cmo_archive g) as (fin & comp & E).
  exists fin, comp.
  rewrite (get_cmo_archive_run _ _ _ _ _ _ _ fin comp E), R.
  rewrite check_pairing_passes by exact P. cbn [state_after result].
  split; [exact E|reflexivity].
Qed.

(** C9. [get_mo_archive] with no vector, no declared [n_obj] and the empty
    reference point: the resolution yields 0, the length of the reference
    point, and the call raises
    [ValueError("Unsupported number of objectives: 0")]. *)
Theorem empty_reference_point_unsupported list_of_f_vals infos g :
  is_None_or_empty list_of_f_vals = true ->
  resolve_n_obj list_of_f_vals (Some []) None g = Outcome g [] (inr 0)
  /\
  get_mo_archive list_of_f_vals (Some []) infos None g
  = Outcome (cached F_get_mo_archive g) []
      (inl (ValueError "Unsupported number of objectives: 0")).
Proof.
  intros H.
  pose proof (resolve_n_obj_reference_point list_of_f_vals [] None g H) as R.
  split; [exact R|].
  destruct (cached_attrs_of F_get_mo_archive g) as (fin & comp & E).
  rewrite (get_mo_archive_run _ _ _ _ _ fin comp E), R. reflexivity.
Qed.

(** C10. For the resolution of [n_obj] the empty list of objective vectors
    counts as no list: the resolution does what it does for [None], and
    succeeds.  For the pairing checks it counts as a list: with
    [list_of_g_vals] absent, [get_cmo_archive] raises the [ValueError] of
    line 150, where the same call with [list_of_f_vals] absent returns an
    archive. *)
Theorem empty_f_vals_need_g_vals reference_point infos n_obj tau g :
  resolve_n_obj (Some []) reference_point n_obj g
  = resolve_n_obj None reference_point n_obj g
  /\
  (exists n, result (resolve_n_obj (Some []) reference_point n_obj g) = inr n)
  /\
  result (get_cmo_archive (Some []) None reference_point infos n_obj tau g)
  = inl (ValueError "list_of_g_vals must be provided if list_of_f_vals is provided")
  /\
  (exists n fin comp,
     result (get_cmo_archive None None reference_point infos n_obj tau g)
     = inr (CMOArchive None None reference_point infos n tau fin comp)).
Proof.
  assert (R : exists n, result (resolve_n_obj (Some []) reference_point n_obj g)
                        = inr n).
  { destruct reference_point as [r|].
    - rewrite resolve_n_obj_reference_point by reflexivity.
      eexists; reflexivity.
    - rewrite resolve_n_obj_nothing by reflexivity. eexists; reflexivity. }
  assert (S : resolve_n_obj (Some []) reference_point n_obj g
              = resolve_n_obj None reference_point n_obj g).
  { destruct reference_point as [r|].
    - rewrite !resolve_n_obj_reference_point by reflexivity. reflexivity.
    - rewrite !resolve_n_obj_nothing by reflexivity. reflexivity. }
  destruct (cached_attrs_of F_get_cmo_archive g) as (fin & comp & E).
  split; [exact S|]. split; [exact R|].
  destruct R as [n R]. split.
  - rewrite (get_cmo_archive_run _ _ _ _ _ _ _ fin comp E), R. reflexivity.
  - exists n, fin, comp.
    rewrite (get_cmo_archive_run _ _ _ _ _ _ _ fin comp E), <- S, R. reflexivity.
Qed.

(** *** The derivation of [n_obj] when none is declared *)

(** C7, as the code has it.  With no declared [n_obj], lines 41-48 set
    [n_obj] to the length of the first vector when the list of vectors is
    non-empty, otherwise to the length of the reference point when there is
    one, and to 2 when there is none.  The checks that follow keep that value
    and warn of nothing; they raise only for a non-empty list of vectors with
    a reference point of another length.  In particular, a non-empty list of
    vectors with neither reference point nor declared [n_obj] resolves to the
    length of its first vector, and [get_mo_archive] emits no warning. *)
Theorem n_obj_derived_when_not_declared list_of_f_vals reference_point infos g :
  derive_n_obj list_of_f_vals reference_point None g
  = Outcome g [] (inr (derived_n_obj list_of_f_vals reference_point))
  /\
  warnings (resolve_n_obj list_of_f_vals reference_point None g) = []
  /\
  (result (resolve_n_obj list_of_f_vals reference_point None g)
   = inr (derived_n_obj list_of_f_vals reference_point)
   \/
   exists f0 rest r,
     list_of_f_vals = Some (f0 :: rest) /\ reference_point = Some r /\
     List.length r <> List.length f0)
  /\
  (forall (f0 : list num) rest,
     resolve_n_obj (Some (f0 :: rest)) None None g = Outcome g [] (inr (len f0))
     /\
     warnings (get_mo_archive (Some (f0 :: rest)) None infos None g) = []).
Proof.
  split; [|split; [|split]].
  - destruct list_of_f_vals as [[|f0 rest]|], reference_point as [r|]; reflexivity.
  - destruct list_of_f_vals as [[|f0 rest]|], reference_point as [r|];
      rewrite ?resolve_n_obj_reference_point, ?resolve_n_obj_nothing by reflexivity;
      try reflexivity.
    + destruct (Nat.eq_dec (List.length r) (List.length f0)) as [E|N].
      * rewrite resolve_n_obj_vectors by exact E. reflexivity.
      * rewrite resolve_n_obj_mismatch by exact N. reflexivity.
    + rewrite resolve_n_obj_vectors by exact I. reflexivity.
  - destruct list_of_f_vals as [[|f0 rest]|], reference_point as [r|];
      rewrite ?resolve_n_obj_reference_point, ?resolve_n_obj_nothing by reflexivity;
      try (left; reflexivity).
    + destruct (Nat.eq_dec (List.length r) (List.length f0)) as [E|N].
      * rewrite resolve_n_obj_vectors by exact E. left; reflexivity.
      * right. exists f0, rest, r. auto.
    + rewrite resolve_n_obj_vectors by exact I. left; reflexivity.
  - intros f0 rest.
    pose proof (resolve_n_obj_vectors f0 rest None None g I) as R.
    split; [exact R|].
    destruct (cached_attrs_of F_get_mo_archive g) as (fin & comp & E).
    rewrite (get_mo_archive_run _ _ _ _ _ fin comp E), R. reflexivity.
Qed.

End EntryPoints.

(** ** The float types over a sequence of calls *)

Section Calls.

Context {num info : Type}.

Implicit Types (g : globals) (f : func_obj).
Implicit Types (c first again : call num info).
Implicit Types (cs later : list (call num info)).

Lemma run_call_state c g : state_after (run_call c g) = cached (callee c) g.
Proof.
  destruct (cached_attrs_of (callee c) g) as (fin & comp & E).
  destruct c; cbn [run_call callee] in *.
  - rewrite (get_mo_archive_run _ _ _ _ _ fin comp E). reflexivity.
  - rewrite (get_cmo_archive_run _ _ _ _ _ _ _ fin comp E). reflexivity.
Qed.

Lemma cached_set f g fin comp :
  attrs_of f g = FuncAttrs (Some fin) (Some comp) -> cached f g = g.
Proof.
  intros E. unfold cached. rewrite E, cached_attrs_set, <- E.
  apply with_attrs_same.
Qed.

Lemma cached_other f f' g : f <> f' -> attrs_of f' (cached f g) = attrs_of f' g.
Proof. intros N. unfold cached. apply attrs_of_with_attrs_other, N. Qed.

Lemma func_obj_eq_dec f f' : {f = f'} + {f <> f'}.
Proof. decide equality. Qed.

Lemma cached_keeps f f' g fin comp :
  attrs_of f' g = FuncAttrs (Some fin) (Some comp) ->
  attrs_of f' (cached f g) = FuncAttrs (Some fin) (Some comp).
Proof.
  intros E. destruct (func_obj_eq_dec f f') as [->|N].
  - rewrite (cached_set _ _ _ _ E). exact E.
  - rewrite cached_other by exact N. exact E.
Qed.

(** Once set, the two attributes of a factory survive every sequence of calls
    of either factory. *)
Lemma run_calls_keeps cs : forall f g fin comp,
  attrs_of f g = FuncAttrs (Some fin) (Some comp) ->
  attrs_of f (run_calls cs g) = FuncAttrs (Some fin) (Some comp).
Proof.
  induction cs as [|c cs IH]; intros f g fin comp E; cbn [run_calls].
  - exact E.
  - apply IH. rewrite run_call_state. apply cached_keeps, E.
Qed.

(** With both attributes set, what a call returns or raises is a function of
    its arguments and of those two attributes. *)
Lemma run_call_result c g g' fin comp :
  attrs_of (callee c) g = FuncAttrs (Some fin) (Some comp) ->
  attrs_of (callee c) g' = FuncAttrs (Some fin) (Some comp) ->
  result (run_call c g') = result (run_call c g).
Proof.
  intros E E'.
  pose proof (cached_set _ _ _ _ E) as C.
  pose proof (cached_set _ _ _ _ E') as C'.
  destruct c; cbn [run_call callee attrs_of] in *.
  - rewrite <- C in E. rewrite <- C' in E'.
    rewrite (get_mo_archive_run _ _ _ _ _ fin comp E).
    rewrite (get_mo_archive_run _ _ _ _ _ fin comp E').
    cbn [result].
    rewrite (resolve_n_obj_pure _ _ _ g g'). reflexivity.
  - rewrite <- C in E. rewrite <- C' in E'.
    rewrite (get_cmo_archive_run _ _ _ _ _ _ _ fin comp E).
    rewrite (get_cmo_archive_run _ _ _ _ _ _ _ fin comp E').
    cbn [result].
    rewrite (resolve_n_obj_pure _ _ _ g g').
    rewrite (check_pairing_pure _ _ g g'). reflexivity.
Qed.

Lemma run_call_float_types c g fin comp a :
  attrs_of (callee c) g = FuncAttrs (Some fin) (Some comp) ->
  result (run_call c g) = inr a ->
  float_types_of a = (fin, comp).
Proof.
  intros E. pose proof (cached_set _ _ _ _ E) as C.
  destruct c; cbn [run_call callee attrs_of] in *; rewrite <- C in E.
  - rewrite (get_mo_archive_run _ _ _ _ _ fin comp E). cbn [result].
    destruct (result (resolve_n_obj list_of_f_vals reference_point n_obj g))
      as [e|n]; [discriminate|].
    unfold choose_mo_archive.
    destruct (n =? 2); [intros [= <-]; reflexivity|].
    destruct (n =? 3); [intros [= <-]; reflexivity|].
    destruct (n =? 4); [intros [= <-]; reflexivity|discriminate].
  - rewrite (get_cmo_archive_run _ _ _ _ _ _ _ fin comp E). cbn [result].
    destruct (result (resolve_n_obj list_of_f_vals reference_point n_obj g))
      as [e|n]; [discriminate|].
    destruct (result (check_pairing list_of_f_vals list_of_g_vals g));
      [discriminate|].
    intros [= <-]. reflexivity.
Qed.

(** C6. After a first call of a factory both of its float-type attributes are
    set.  Whatever calls of either factory follow, they still hold the same
    pair; a further call of that factory leaves the whole state as it finds
    it, builds its archive, if it returns one, with that pair, and returns or
    raises the same whether or not [fractions] is bound by then: the pair is
    read, not resolved again.  A call of one factory never touches the
    attributes of the other, set or not: each has its own slot. *)
Theorem float_types_cached_once first again later g :
  callee again = callee first ->
  exists fin comp,
    attrs_of (callee first) (state_after (run_call first g))
    = FuncAttrs (Some fin) (Some comp)
    /\
    attrs_of (callee first) (run_calls later (state_after (run_call first g)))
    = FuncAttrs (Some fin) (Some comp)
    /\
    state_after (run_call again (run_calls later (state_after (run_call first g))))
    = run_calls later (state_after (run_call first g))
    /\
    (forall a,
       result (run_call again (run_calls later (state_after (run_call first g))))
       = inr a ->
       float_types_of a = (fin, comp))
    /\
    (forall b,
       result (run_call again
                 (with_fractions b
                    (run_calls later (state_after (run_call first g)))))
       = result (run_call again
                   (run_calls later (state_after (run_call first g)))))
    /\
    (forall c g',
       callee c <> callee first ->
       attrs_of (callee first) (state_after (run_call c g'))
       = attrs_of (callee first) g').
Proof.
  intros Same.
  destruct (cached_attrs_of (callee first) g) as (fin & comp & E).
  rewrite <- run_call_state in E.
  exists fin, comp.
  pose proof (run_calls_keeps later _ _ _ _ E) as K.
  set (g2 := run_calls later (state_after (run_call first g))) in *.
  rewrite <- Same in K.
  split; [exact E|]. split; [rewrite <- Same; exact K|].
  split; [|split; [|split]].
  - rewrite run_call_state. apply (cached_set _ _ _ _ K).
  - intros a. apply run_call_float_types, K.
  - intros b. apply (run_call_result again g2 _ fin comp K).
    destruct (callee again), g2; exact K.
  - intros c g' N. rewrite run_call_state. apply cached_other, N.
Qed.

End Calls.

(** ** The properties at work on concrete calls *)

(** Scenario 4 of the specification on both factories. *)
Lemma reference_point_mismatch_raises_witness :
  List.length [1; 2; 3] <> List.length [1; 2]
  /\
  result (get_mo_archive (num := Z) (info := string) (Some [[1; 2]]) (Some [1; 2; 3])
            None None (fresh_process true))
  = inl (ValueError
           "n_obj (3) does not match the number of objectives in the first element of list_of_f_vals (2)")
  /\
  result (get_cmo_archive (num := Z) (info := string) (Some [[1; 2]]) (Some [[0]])
            (Some [1; 2; 3]) None (Some 2) 1 (fresh_process true))
  = inl (ValueError
           "n_obj (3) does not match the number of objectives in the first element of list_of_f_vals (2)").
Proof.
  assert (N : List.length [1; 2; 3] <> List.length [1; 2]) by (simpl; lia).
  split; [exact N|].
  destruct (reference_point_mismatch_raises (num := Z) (info := string)
              [1; 2] [] [1; 2; 3] (Some [[0]]) None (Some 2) 1
              (fresh_process true) N) as [_ B].
  destruct (reference_point_mismatch_raises (num := Z) (info := string)
              [1; 2] [] [1; 2; 3] None None None 1
              (fresh_process true) N) as [A _].
  rewrite A, B. split; reflexivity.
Defined.

(** Scenario 2 of the specification: three objectives, two declared. *)
Lemma get_mo_archive_dispatch_witness :
  result (resolve_n_obj (Some [[1; 2; 3]]) None (Some 2) (fresh_process false))
  = inr 3
  /\
  result (get_mo_archive (num := Z) (info := string) (Some [[1; 2; 3]]) None None (Some 2)
            (fresh_process false))
  = inr (MOArchive3d (Some [[1; 2; 3]]) None None float float).
Proof.
  assert (R : result (resolve_n_obj (Some [[1; 2; 3]]) None (Some 2)
                        (fresh_process false)) = inr 3) by reflexivity.
  split; [exact R|].
  destruct (get_mo_archive_dispatch (num := Z) (info := string) (Some [[1; 2; 3]]) None None
              (Some 2) (fresh_process false) 3 R)
    as (fin & comp & A & _ & T & _).
  rewrite (T eq_refl). vm_compute in A. injection A as <- <-. reflexivity.
Defined.

Lemma declared_n_obj_overridden_witness :
  observed_n_obj (Some [[1; 2; 3]]) None = Some 3
  /\ 2 <> 3
  /\
  get_mo_archive (num := Z) (info := string) (Some [[1; 2; 3]]) None None (Some 2)
    (fresh_process true)
  = Outcome (Globals true (FuncAttrs (Some Fraction) (Some Fraction))
               (FuncAttrs None None))
      ["n_obj (2) does not match the number of objectives in list_of_f_vals (3)"]
      (inr (MOArchive3d (Some [[1; 2; 3]]) None None Fraction Fraction))
  /\
  get_cmo_archive (num := Z) (info := string) None None (Some [1; 2; 3; 4; 5]) None
    (Some (-3)) 1 (fresh_process true)
  = Outcome (Globals true (FuncAttrs None None)
               (FuncAttrs (Some Fraction) (Some Fraction)))
      ["n_obj (-3) does not match the number of objectives in reference_point (5)"]
      (inr (CMOArchive None None (Some [1; 2; 3; 4; 5]) None 5 1 Fraction Fraction)).
Proof.
  assert (O : observed_n_obj (Some [[1; 2; 3]]) None = Some 3) by reflexivity.
  assert (N : 2 <> 3) by lia.
  assert (O' : observed_n_obj (@None (list (list Z))) (Some [1; 2; 3; 4; 5])
               = Some 5) by reflexivity.
  assert (N' : -3 <> 5) by lia.
  split; [exact O|]. split; [exact N|].
  destruct (declared_n_obj_overridden (num := Z) (info := string) (Some [[1; 2; 3]]) None
              None None 2 1 (fresh_process true) 3 O N) as (_ & A & _).
  destruct (declared_n_obj_overridden (num := Z) (info := string) None None
              (Some [1; 2; 3; 4; 5]) None (-3) 1 (fresh_process true) 5 O' N')
    as (_ & _ & B).
  rewrite A, B. split; reflexivity.
Defined.

(** The call on which C4 as worded fails: no vector, no declared [n_obj], no
    reference point, and [get_cmo_archive] raises. *)
Lemma default_n_obj_constrained_counterexample :
  is_None_or_empty (@Some (list (list Z)) []) = true
  /\
  result (get_cmo_archive (num := Z) (info := string) (Some []) None None None None 1
            (fresh_process true))
  = inl (ValueError "list_of_g_vals must be provided if list_of_f_vals is provided")
  /\
  ~ (exists a,
       result (get_cmo_archive (num := Z) (info := string) (Some []) None None None None 1
                 (fresh_process true)) = inr a).
Proof.
  split; [reflexivity|]. split; [reflexivity|].
  intros [a H]. discriminate H.
Qed.

Lemma default_n_obj_is_two_witness :
  is_None_or_empty (@Some (list (list Z)) []) = true
  /\
  resolve_n_obj (@Some (list (list Z)) []) None None (fresh_process true)
  = Outcome (fresh_process true) [] (inr 2)
  /\
  result (get_mo_archive (num := Z) (info := string) (Some []) None None None
            (fresh_process true))
  = inr (MOArchive2d (Some []) None None Fraction Fraction)
  /\
  result (get_cmo_archive (num := Z) (info := string) (Some []) (Some []) None None None 1
            (fresh_process true))
  = inr (CMOArchive (Some []) (Some []) None None 2 1 Fraction Fraction).
Proof.
  assert (H : is_None_or_empty (@Some (list (list Z)) []) = true) by reflexivity.
  split; [exact H|].
  destruct (default_n_obj_is_two (num := Z) (info := string) (Some []) (Some []) None 1
              (fresh_process true) H)
    as (R & (fin & comp & A) & (fin' & comp' & B) & _).
  split; [exact R|].
  pose proof (f_equal result A) as A'. vm_compute in A'. injection A' as <- <-.
  pose proof (f_equal result B) as B'. vm_compute in B'. injection B' as <- <-.
  rewrite A, B. split; reflexivity.
Defined.

(** Scenario 5 of the specification. *)
Lemma pairing_violation_raises_witness :
  pairing_violated (Some [[1; 2]; [2; 1]]) None
  /\
  get_cmo_archive (num := Z) (info := string) (Some [[1; 2]; [2; 1]]) None None None None 1
    (fresh_process true)
  = Outcome (Globals true (FuncAttrs None None)
               (FuncAttrs (Some Fraction) (Some Fraction)))
      []
      (inl (ValueError "list_of_g_vals must be provided if list_of_f_vals is provided")).
Proof.
  assert (V : pairing_violated (Some [[1; 2]; [2; 1]]) None) by exact I.
  split; [exact V|].
  destruct (pairing_violation_raises (num := Z) (info := string) (Some [[1; 2]; [2; 1]]) None
              None None None 1 (fresh_process true) V) as (_ & A & _).
  rewrite (A 2 eq_refl). reflexivity.
Defined.

(** Three calls after a first one, in a process without [fractions]. *)
Lemma float_types_cached_once_witness :
  callee (Call_get_mo_archive (num := Z) (info := string) None (Some [1; 1; 1; 1]) None None)
  = callee (Call_get_mo_archive (num := Z) (info := string) None None None None)
  /\
  exists fin comp,
    mo_attrs
      (run_calls (num := Z) (info := string)
         [Call_get_cmo_archive (Some [[1; 2]]) None None None None 1;
          Call_get_mo_archive (Some [[1; 2]]) (Some [1; 2; 3]) None None]
         (state_after
            (run_call (Call_get_mo_archive (num := Z) (info := string) None None None None)
               (fresh_process false))))
    = FuncAttrs (Some fin) (Some comp)
    /\
    forall a : archive Z string,
      result
        (run_call (Call_get_mo_archive None (Some [1; 1; 1; 1]) None None)
           (run_calls (num := Z) (info := string)
              [Call_get_cmo_archive (Some [[1; 2]]) None None None None 1;
               Call_get_mo_archive (Some [[1; 2]]) (Some [1; 2; 3]) None None]
              (state_after
                 (run_call
                    (Call_get_mo_archive (num := Z) (info := string) None None None None)
                    (fresh_process false))))) = inr a ->
      float_types_of a = (fin, comp).
Proof.
  split; [reflexivity|].
  destruct (float_types_cached_once (num := Z) (info := string)
              (Call_get_mo_archive (num := Z) (info := string) None None None None)
              (Call_get_mo_archive None (Some [1; 1; 1; 1]) None None)
              [Call_get_cmo_archive (Some [[1; 2]]) None None None None 1;
               Call_get_mo_archive (Some [[1; 2]]) (Some [1; 2; 3]) None None]
              (fresh_process false) eq_refl)
    as (fin & comp & _ & K & _ & T & _).
  exists fin, comp. split; [exact K|exact T].
Defined.

(** The call on which C7 as worded fails: nothing is given, so there is no
    reference point whose length the count could be, and the count is 2. *)
Lemma derived_n_obj_default_counterexample :
  derive_n_obj (@None (list (list Z))) None None (fresh_process true)
  = Outcome (fresh_process true) [] (inr 2)
  /\
  ~ derives_as_stated (@None (list (list Z))) None (fresh_process true).
Proof.
  split; [reflexivity|].
  intros (n & _ & r & H & _). discriminate H.
Qed.

(** Seven objectives on the constrained factory. *)
Lemma get_cmo_archive_any_n_obj_witness :
  result (resolve_n_obj (@None (list (list Z))) (Some [1; 2; 3; 4; 5; 6; 7]) None
            (fresh_process true)) = inr 7
  /\
  paired (@None (list (list Z))) None
  /\
  result (get_cmo_archive (num := Z) (info := string) None None (Some [1; 2; 3; 4; 5; 6; 7])
            None None 1 (fresh_process true))
  = inr (CMOArchive None None (Some [1; 2; 3; 4; 5; 6; 7]) None 7 1
           Fraction Fraction).
Proof.
  assert (R : result (resolve_n_obj (@None (list (list Z)))
                        (Some [1; 2; 3; 4; 5; 6; 7]) None (fresh_process true))
              = inr 7) by reflexivity.
  assert (P : paired (@None (list (list Z))) None) by exact I.
  split; [exact R|]. split; [exact P|].
  destruct (get_cmo_archive_any_n_obj (num := Z) (info := string) None None
              (Some [1; 2; 3; 4; 5; 6; 7]) None None 1 (fresh_process true) 7 R P)
    as ((fin & comp & A & B) & _).
  rewrite B. vm_compute in A. injection A as <- <-. reflexivity.
Defined.

Lemma empty_reference_point_unsupported_witness :
  is_None_or_empty (@None (list (list Z))) = true
  /\
  result (get_mo_archive (num := Z) (info := string) None (Some []) None None
            (fresh_process true))
  = inl (ValueError "Unsupported number of objectives: 0").
Proof.
  assert (H : is_None_or_empty (@None (list (list Z))) = true) by reflexivity.
  split; [exact H|].
  destruct (empty_reference_point_unsupported (num := Z) (info := string) None None
              (fresh_process true) H) as [_ A].
  rewrite A. reflexivity.
Defined.

(** ** Further properties of the factories *)

Section Further.

Context {num info : Type}.

Implicit Types (g : globals) (f : func_obj) (a : attr_name).
Implicit Types (r : list num) (rest : list (list num)).
Implicit Types (list_of_f_vals list_of_g_vals : option (list (list num))).
Implicit Types (reference_point : option (list num)).
Implicit Types (infos : option (list info)) (tau : num).
Implicit Types (c : call num info) (cs : list (call num info)).
Implicit Types (x : archive num info).

Lemma is_None_or_empty_cons {A} (v : A) (l : list A) :
  is_None_or_empty (Some (v :: l)) = false.
Proof. unfold is_None_or_empty, len. apply Z.eqb_neq. cbn [List.length]. lia. Qed.

Lemma conflicting_dec list_of_f_vals reference_point :
  conflicting list_of_f_vals reference_point \/
  ~ conflicting list_of_f_vals reference_point.
Proof.
  destruct list_of_f_vals as [[|f0 rest]|];
    try (right; intros (? & ? & ? & [=] & _); fail).
  destruct reference_point as [r|];
    [|right; intros (? & ? & ? & _ & [=] & _)].
  destruct (Nat.eq_dec (List.length r) (List.length f0)) as [E|N].
  - right. intros (? & ? & ? & [= <- <-] & [= <-] & N). contradiction.
  - left. exists f0, rest, r. auto.
Qed.

(** The resolution when vectors and reference point conflict. *)
Lemma resolve_n_obj_conflicting list_of_f_vals reference_point n_obj g :
  conflicting list_of_f_vals reference_point ->
  exists msg,
    resolve_n_obj list_of_f_vals reference_point n_obj g
    = Outcome g [] (inl (ValueError msg)) /\
    expected_warnings list_of_f_vals reference_point n_obj = [].
Proof.
  intros (f0 & rest & r & -> & -> & N).
  rewrite resolve_n_obj_mismatch by exact N.
  eexists. split; [reflexivity|].
  unfold expected_warnings, observed_n_obj.
  replace (len r =? len f0) with false.
  - destruct n_obj; reflexivity.
  - symmetry. apply Z.eqb_neq. intros E. apply N, len_inj, E.
Qed.

(** The resolution when they do not: it yields a count that agrees with all
    the data there is, and warns as [expected_warnings] says. *)
Lemma resolve_n_obj_agrees list_of_f_vals reference_point n_obj g :
  ~ conflicting list_of_f_vals reference_point ->
  exists n,
    resolve_n_obj list_of_f_vals reference_point n_obj g
    = Outcome g (expected_warnings list_of_f_vals reference_point n_obj) (inr n)
    /\ (forall (f0 : list num) rest,
          list_of_f_vals = Some (f0 :: rest) -> n = len f0)
    /\ (forall r, reference_point = Some r -> n = len r)
    /\ (is_None_or_empty list_of_f_vals = true -> reference_point = None ->
        n = match n_obj with Some d => d | None => 2 end).
Proof.
  intros NC.
  destruct list_of_f_vals as [[|f0 rest]|] eqn:EL.
  - destruct reference_point as [r|].
    + exists (len r). rewrite resolve_n_obj_reference_point by reflexivity.
      repeat split; try discriminate; try (intros ? [= <-]; reflexivity).
    + exists (match n_obj with Some d => d | None => 2 end).
      rewrite resolve_n_obj_nothing by reflexivity.
      unfold expected_warnings. cbn. destruct n_obj; repeat split; discriminate.
  - exists (len f0).
    assert (H : match reference_point with
                | Some r => List.length r = List.length f0
                | None => True
                end).
    { destruct reference_point as [r|]; [|exact I].
      destruct (Nat.eq_dec (List.length r) (List.length f0)) as [E|N]; [exact E|].
      exfalso. apply NC. exists f0, rest, r. auto. }
    rewrite resolve_n_obj_vectors by exact H.
    split; [|split; [|split]].
    + f_equal. unfold expected_warnings, observed_n_obj, msg_n_obj_overridden.
      rewrite is_None_or_empty_cons.
      destruct reference_point as [r|]; [|reflexivity].
      replace (len r =? len f0) with true; [reflexivity|].
      symmetry. apply Z.eqb_eq. unfold len. congruence.
    + intros ? ? [= <- _]. reflexivity.
    + intros r ->. unfold len. congruence.
    + rewrite is_None_or_empty_cons. discriminate.
  - destruct reference_point as [r|].
    + exists (len r). rewrite resolve_n_obj_reference_point by reflexivity.
      repeat split; try discriminate; try (intros ? [= <-]; reflexivity).
    + exists (match n_obj with Some d => d | None => 2 end).
      rewrite resolve_n_obj_nothing by reflexivity.
      unfold expected_warnings. cbn. destruct n_obj; repeat split; discriminate.
Qed.

(** A call, run: the state, the warnings of the resolution, and the result
    as a function of the two attribute values in the state it leaves. *)
Lemma run_call_run c g fin comp :
  attrs_of (callee c) (cached (callee c) g) = FuncAttrs (Some fin) (Some comp) ->
  run_call c g
  = Outcome (cached (callee c) g)
      (warnings (resolve_n_obj (call_f_vals c) (call_reference_point c)
                   (call_n_obj c) g))
      (match result (resolve_n_obj (call_f_vals c) (call_reference_point c)
                       (call_n_obj c) g) with
       | inl e => inl e
       | inr n =>
           match c with
           | Call_get_mo_archive list_of_f_vals reference_point infos _ =>
               choose_mo_archive list_of_f_vals reference_point infos n fin comp
           | Call_get_cmo_archive list_of_f_vals list_of_g_vals reference_point
               infos _ tau =>
               match result (check_pairing list_of_f_vals list_of_g_vals g) with
               | inl e => inl e
               | inr _ =>
                   inr (CMOArchive list_of_f_vals list_of_g_vals reference_point
                          infos n tau fin comp)
               end
           end
       end).
Proof.
  intros E. destruct c; cbn [run_call callee call_f_vals call_reference_point
                             call_n_obj attrs_of] in *.
  - apply get_mo_archive_run, E.
  - apply get_cmo_archive_run, E.
Qed.

Lemma choose_mo_archive_returns list_of_f_vals reference_point infos n fin comp x :
  choose_mo_archive list_of_f_vals reference_point infos n fin comp = inr x ->
  dimension_of x = n /\ float_types_of x = (fin, comp).
Proof.
  unfold choose_mo_archive.
  destruct (n =? 2) eqn:E2; [apply Z.eqb_eq in E2; intros [= <-]; auto|].
  destruct (n =? 3) eqn:E3; [apply Z.eqb_eq in E3; intros [= <-]; auto|].
  destruct (n =? 4) eqn:E4; [apply Z.eqb_eq in E4; intros [= <-]; auto|].
  discriminate.
Qed.


(** What a call that returns has built. *)
Lemma run_call_returns c g x :
  result (run_call c g) = inr x ->
  exists n,
    result (resolve_n_obj (call_f_vals c) (call_reference_point c)
              (call_n_obj c) g) = inr n /\
    dimension_of x = n /\
    attrs_of (callee c) (cached (callee c) g)
    = FuncAttrs (Some (fst (float_types_of x))) (Some (snd (float_types_of x))).
Proof.
  destruct (cached_attrs_of (callee c) g) as (fin & comp & E).
  rewrite (run_call_run c g fin comp E). cbn [result].
  destruct (result (resolve_n_obj (call_f_vals c) (call_reference_point c)
                      (call_n_obj c) g)) as [e|n]; [discriminate|].
  intros H. exists n. split; [reflexivity|]. rewrite E.
  destruct c.
  - apply choose_mo_archive_returns in H as [D ->]. auto.
  - destruct (result (check_pairing list_of_f_vals list_of_g_vals g));
      [discriminate|].
    injection H as <-. auto.
Qed.

(** *** What is raised *)


(** *** The float types in a process that starts with the import *)

Lemma uniform_cached b f g : uniform b g -> uniform b (cached f g).
Proof.
  intros [B U]. split; [destruct f, g; exact B|].
  intros f'. destruct (func_obj_eq_dec f f') as [<-|N].
  - right. unfold cached. rewrite attrs_of_with_attrs.
    unfold cached_attrs, cached_attr, resolved_float_type. rewrite B.
    destruct (U f) as [-> | ->]; reflexivity.
  - rewrite cached_other by exact N. apply U.
Qed.

Lemma uniform_run_calls b cs : forall g, uniform b g -> uniform b (run_calls cs g).
Proof.
  induction cs as [|c cs IH]; intros g U; cbn [run_calls]; [exact U|].
  apply IH. rewrite run_call_state. apply uniform_cached, U.
Qed.

Lemma uniform_fresh_process b : uniform b (fresh_process b).
Proof. split; [destruct b; reflexivity|]. intros f. left. destruct f, b; reflexivity. Qed.

(** X2. From the import on, through any sequence of factory calls, a factory
    never holds a mixed or a half-set pair: its two attributes are both unset
    (it was not called yet) or both [Fraction] when [fractions] could be
    imported and both [float] when it could not; and the global [fractions]
    is as the import left it. *)
Theorem float_types_never_mixed (fractions_installed : bool) cs f :
  fractions_bound (run_calls cs (fresh_process fractions_installed))
  = fractions_installed
  /\
  (attrs_of f (run_calls cs (fresh_process fractions_installed))
   = FuncAttrs None None
   \/
   attrs_of f (run_calls cs (fresh_process fractions_installed))
   = FuncAttrs (Some (if fractions_installed then Fraction else float))
       (Some (if fractions_installed then Fraction else float))).
Proof.
  destruct (uniform_run_calls fractions_installed cs _
              (uniform_fresh_process fractions_installed)) as [B U].
  split; [exact B|apply U].
Qed.

(** X3. Every archive a factory returns, at any point of such a process, was
    given [Fraction] for both float types when [fractions] could be imported,
    and [float] for both when it could not. *)
Theorem archive_float_types_after_import (fractions_installed : bool) cs c x :
  result (run_call c (run_calls cs (fresh_process fractions_installed))) = inr x ->
  float_types_of x
  = (if fractions_installed then Fraction else float,
     if fractions_installed then Fraction else float).
Proof.
  intros H. apply run_call_returns in H as (n & _ & _ & E).
  pose proof (uniform_cached fractions_installed (callee c) _
                (uniform_run_calls fractions_installed cs _
                   (uniform_fresh_process fractions_installed))) as [_ U].
  destruct (U (callee c)) as [N|S]; rewrite E in *; [discriminate|].
  injection S as F1 F2. destruct (float_types_of x) as [p q]; cbn in *.
  congruence.
Qed.

(** *** Attributes set from outside *)

Lemma cached_keeps_attr f f' a v g :
  lookup_attr a (attrs_of f g) = Some v ->
  lookup_attr a (attrs_of f (cached f' g)) = Some v.
Proof.
  destruct g as [b [mf mc] [cf cc]].
  destruct f, f', a; cbn; intros ->; reflexivity.
Qed.

Lemma run_calls_keeps_attr f a v cs : forall g,
  lookup_attr a (attrs_of f g) = Some v ->
  lookup_attr a (attrs_of f (run_calls cs g)) = Some v.
Proof.
  induction cs as [|c cs IH]; intros g H; cbn [run_calls]; [exact H|].
  apply IH. rewrite run_call_state. apply cached_keeps_attr, H.
Qed.

(** X4. An attribute that is set, by a factory or by an assignment such as
    [get_mo_archive.hypervolume_final_float_type = float] made before, is
    never overwritten: after any sequence of calls of either factory it holds
    the same value, and every archive that factory returns was given that
    value for it, whatever the other attribute is. *)
Theorem set_attribute_is_kept f a v cs c x g :
  lookup_attr a (attrs_of f g) = Some v ->
  callee c = f ->
  result (run_call c (run_calls cs g)) = inr x ->
  lookup_attr a (attrs_of f (run_calls cs g)) = Some v
  /\
  float_type_of a x = v.
Proof.
  intros H <- R.
  pose proof (run_calls_keeps_attr _ _ _ cs _ H) as K.
  split; [exact K|].
  apply run_call_returns in R as (n & _ & _ & E).
  pose proof (cached_keeps_attr _ (callee c) _ _ _ K) as K'.
  rewrite E in K'. destruct a; cbn in K'; injection K' as <-; reflexivity.
Qed.

(** *** The archive and the data *)

(** X5. The archive a factory returns has the dimension of the data: the
    length of the first objective vector when there is one, the length of the
    reference point when there is one, and, when there is neither, the
    declared [n_obj] or else 2. *)
Theorem returned_archive_matches_data c g x :
  result (run_call c g) = inr x ->
  (forall (f0 : list num) rest,
     call_f_vals c = Some (f0 :: rest) -> dimension_of x = len f0)
  /\
  (forall r, call_reference_point c = Some r -> dimension_of x = len r)
  /\
  (is_None_or_empty (call_f_vals c) = true -> call_reference_point c = None ->
   dimension_of x = match call_n_obj c with Some d => d | None => 2 end).
Proof.
  intros H. apply run_call_returns in H as (n & R & -> & _).
  destruct (conflicting_dec (call_f_vals c) (call_reference_point c)) as [C|NC].
  - destruct (resolve_n_obj_conflicting _ _ (call_n_obj c) g C) as (msg & Q & _).
    rewrite Q in R. discriminate.
  - destruct (resolve_n_obj_agrees _ _ (call_n_obj c) g NC) as (n' & Q & A & B & D).
    rewrite Q in R. injection R as <-. auto.
Qed.

(** X6. The warnings of a call, exactly: none when no [n_obj] is declared,
    none when vectors and reference point conflict or when there is neither,
    none when the declared [n_obj] is the observed length, and the one
    warning naming both numbers otherwise.  A call never warns twice. *)
Theorem warnings_of_a_call c g :
  warnings (run_call c g)
  = expected_warnings (call_f_vals c) (call_reference_point c) (call_n_obj c).
Proof.
  destruct (cached_attrs_of (callee c) g) as (fin & comp & E).
  rewrite (run_call_run c g fin comp E). cbn [warnings].
  destruct (conflicting_dec (call_f_vals c) (call_reference_point c)) as [C|NC].
  - destruct (resolve_n_obj_conflicting _ _ (call_n_obj c) g C) as (msg & Q & W).
    rewrite Q, W. reflexivity.
  - destruct (resolve_n_obj_agrees _ _ (call_n_obj c) g NC) as (n' & Q & _).
    rewrite Q. reflexivity.
Qed.

(** The result of the resolution does not depend on the declared [n_obj] as
    soon as there is a vector or a reference point. *)
Lemma resolve_n_obj_result_with_data list_of_f_vals reference_point n_obj n_obj' g :
  is_None_or_empty list_of_f_vals = false \/ reference_point <> None ->
  result (resolve_n_obj list_of_f_vals reference_point n_obj g)
  = result (resolve_n_obj list_of_f_vals reference_point n_obj' g).
Proof.
  intros D.
  destruct list_of_f_vals as [[|f0 rest]|].
  - destruct reference_point as [r|];
      [|destruct D as [D|D]; [discriminate|contradiction]].
    rewrite !resolve_n_obj_reference_point by reflexivity. reflexivity.
  - destruct reference_point as [r|].
    + destruct (Nat.eq_dec (List.length r) (List.length f0)) as [E|N].
      * rewrite !resolve_n_obj_vectors by exact E. reflexivity.
      * rewrite !resolve_n_obj_mismatch by exact N. reflexivity.
    + rewrite !resolve_n_obj_vectors by exact I. reflexivity.
  - destruct reference_point as [r|];
      [|destruct D as [D|D]; [discriminate|contradiction]].
    rewrite !resolve_n_obj_reference_point by reflexivity. reflexivity.
Qed.

(** X7. With a vector or a reference point at hand the declared [n_obj] is
    only a hint: whatever it is, given or not, both factories return the same
    archive or raise the same exception (only the warning can differ). *)
Theorem declared_n_obj_is_only_a_hint
    list_of_f_vals list_of_g_vals reference_point infos n_obj n_obj' tau g :
  is_None_or_empty list_of_f_vals = false \/ reference_point <> None ->
  result (get_mo_archive list_of_f_vals reference_point infos n_obj g)
  = result (get_mo_archive list_of_f_vals reference_point infos n_obj' g)
  /\
  result (get_cmo_archive list_of_f_vals list_of_g_vals reference_point infos
            n_obj tau g)
  = result (get_cmo_archive list_of_f_vals list_of_g_vals reference_point infos
              n_obj' tau g).
Proof.
  intros D. split.
  - destruct (cached_attrs_of F_get_mo_archive g) as (fin & comp & E).
    rewrite !(get_mo_archive_run _ _ _ _ _ fin comp E). cbn [result].
    rewrite (resolve_n_obj_result_with_data _ _ n_obj n_obj' g D). reflexivity.
  - destruct (cached_attrs_of F_get_cmo_archive g) as (fin & comp & E).
    rewrite !(get_cmo_archive_run _ _ _ _ _ _ _ fin comp E). cbn [result].
    rewrite (resolve_n_obj_result_with_data _ _ n_obj n_obj' g D). reflexivity.
Qed.

(** *** Calls and the calls before them *)

Lemma cached_attrs_fractions g g' d :
  fractions_bound g' = fractions_bound g -> cached_attrs g' d = cached_attrs g d.
Proof.
  intros B. unfold cached_attrs, cached_attr, resolved_float_type.
  rewrite B. reflexivity.
Qed.

Lemma cached_attrs_idem g d : cached_attrs g (cached_attrs g d) = cached_attrs g d.
Proof. destruct d as [[?|] [?|]]; reflexivity. Qed.

Lemma fractions_bound_cached f g : fractions_bound (cached f g) = fractions_bound g.
Proof. destruct f, g; reflexivity. Qed.

(** What a first call of [f] would cache in [g] is what it would cache after
    any calls made from [g]. *)
Lemma run_calls_same_cache cs : forall g g',
  fractions_bound g' = fractions_bound g ->
  (forall f, cached_attrs g (attrs_of f g') = cached_attrs g (attrs_of f g)) ->
  fractions_bound (run_calls cs g') = fractions_bound g /\
  forall f,
    cached_attrs g (attrs_of f (run_calls cs g')) = cached_attrs g (attrs_of f g).
Proof.
  induction cs as [|c cs IH]; intros g g' B H; cbn [run_calls]; [auto|].
  apply IH; rewrite run_call_state.
  - rewrite fractions_bound_cached. exact B.
  - intros f. destruct (func_obj_eq_dec (callee c) f) as [<-|N].
    + unfold cached at 1. rewrite attrs_of_with_attrs.
      rewrite (cached_attrs_fractions g g' _ B), cached_attrs_idem. apply H.
    + rewrite cached_other by exact N. apply H.
Qed.

(** X8. What a call returns or raises, and what it warns of, does not depend
    on the factory calls made before it in the process, of either factory,
    returned or raised: it is what the same call gives when made first. *)
Theorem call_independent_of_history c cs g :
  result (run_call c (run_calls cs g)) = result (run_call c g)
  /\
  warnings (run_call c (run_calls cs g)) = warnings (run_call c g).
Proof.
  destruct (run_calls_same_cache cs g g eq_refl (fun _ => eq_refl)) as [B H].
  destruct (cached_attrs_of (callee c) g) as (fin & comp & E).
  assert (E' : attrs_of (callee c) (cached (callee c) (run_calls cs g))
               = FuncAttrs (Some fin) (Some comp)).
  { rewrite <- E. unfold cached. rewrite !attrs_of_with_attrs.
    rewrite (cached_attrs_fractions g (run_calls cs g) _ B). apply H. }
  rewrite (run_call_run c g fin comp E).
  rewrite (run_call_run c (run_calls cs g) fin comp E').
  cbn [result warnings].
  rewrite (resolve_n_obj_pure _ _ _ g (run_calls cs g)). cbn [result warnings].
  split; [|reflexivity].
  destruct (result (resolve_n_obj (call_f_vals c) (call_reference_point c)
                      (call_n_obj c) g)); [reflexivity|].
  destruct c; [reflexivity|].
  rewrite (check_pairing_pure _ _ g (run_calls cs g)). reflexivity.
Qed.

(** *** When the constrained factory returns *)


(** *** Arguments that are only passed on *)

(** X10. [infos] and [tau] are never looked at: with other values for them a
    call leaves the same state, warns of the same, and raises the same
    exception if it raises one.  In particular an [infos] list whose length
    is not that of [list_of_f_vals] is passed on as it is. *)
Theorem infos_and_tau_only_passed_on
    list_of_f_vals list_of_g_vals reference_point infos infos' n_obj tau tau' g :
  (state_after (get_mo_archive list_of_f_vals reference_point infos n_obj g)
   = state_after (get_mo_archive list_of_f_vals reference_point infos' n_obj g)
   /\
   warnings (get_mo_archive list_of_f_vals reference_point infos n_obj g)
   = warnings (get_mo_archive list_of_f_vals reference_point infos' n_obj g)
   /\
   forall e,
     result (get_mo_archive list_of_f_vals reference_point infos n_obj g) = inl e
     <->
     result (get_mo_archive list_of_f_vals reference_point infos' n_obj g) = inl e)
  /\
  (state_after (get_cmo_archive list_of_f_vals list_of_g_vals reference_point
                  infos n_obj tau g)
   = state_after (get_cmo_archive list_of_f_vals list_of_g_vals reference_point
                    infos' n_obj tau' g)
   /\
   warnings (get_cmo_archive list_of_f_vals list_of_g_vals reference_point
               infos n_obj tau g)
   = warnings (get_cmo_archive list_of_f_vals list_of_g_vals reference_point
                 infos' n_obj tau' g)
   /\
   forall e,
     result (get_cmo_archive list_of_f_vals list_of_g_vals reference_point
               infos n_obj tau g) = inl e
     <->
     result (get_cmo_archive list_of_f_vals list_of_g_vals reference_point
               infos' n_obj tau' g) = inl e).
Proof.
  split.
  - destruct (cached_attrs_of F_get_mo_archive g) as (fin & comp & E).
    rewrite !(get_mo_archive_run _ _ _ _ _ fin comp E).
    cbn [state_after warnings result].
    split; [reflexivity|]. split; [reflexivity|]. intros e.
    destruct (result (resolve_n_obj list_of_f_vals reference_point n_obj g))
      as [e'|n]; [reflexivity|].
    unfold choose_mo_archive.
    destruct (n =? 2); [split; discriminate|].
    destruct (n =? 3); [split; discriminate|].
    destruct (n =? 4); [split; discriminate|reflexivity].
  - destruct (cached_attrs_of F_get_cmo_archive g) as (fin & comp & E).
    rewrite !(get_cmo_archive_run _ _ _ _ _ _ _ fin comp E).
    cbn [state_after warnings result].
    split; [reflexivity|]. split; [reflexivity|]. intros e.
    destruct (result (resolve_n_obj list_of_f_vals reference_point n_obj g))
      as [e'|n]; [reflexivity|].
    destruct (result (check_pairing list_of_f_vals list_of_g_vals g));
      [reflexivity|split; discriminate].
Qed.

(** *** The two factories side by side *)

(** X11. Whatever [get_mo_archive] accepts, [get_cmo_archive] accepts with
    paired constraint vectors: it returns a [CMOArchive] whose [n_obj] is the
    dimension of the unconstrained archive, built from the same arguments,
    after the same warnings. *)
Theorem get_cmo_archive_follows_get_mo_archive
    list_of_f_vals list_of_g_vals reference_point infos n_obj tau g x :
  result (get_mo_archive list_of_f_vals reference_point infos n_obj g) = inr x ->
  paired list_of_f_vals list_of_g_vals ->
  (exists fin comp,
     result (get_cmo_archive list_of_f_vals list_of_g_vals reference_point infos
               n_obj tau g)
     = inr (CMOArchive list_of_f_vals list_of_g_vals reference_point infos
              (dimension_of x) tau fin comp))
  /\
  warnings (get_cmo_archive list_of_f_vals list_of_g_vals reference_point infos
              n_obj tau g)
  = warnings (get_mo_archive list_of_f_vals reference_point infos n_obj g).
Proof.
  intros H P.
  destruct (cached_attrs_of F_get_mo_archive g) as (fin & comp & E).
  destruct (cached_attrs_of F_get_cmo_archive g) as (fin' & comp' & E').
  rewrite (get_mo_archive_run _ _ _ _ _ fin comp E) in *.
  rewrite (get_cmo_archive_run _ _ _ _ _ _ _ fin' comp' E').
  cbn [result warnings] in *. split; [|reflexivity].
  destruct (result (resolve_n_obj list_of_f_vals reference_point n_obj g))
    as [e|n]; [discriminate|].
  apply choose_mo_archive_returns in H as [-> _].
  rewrite (check_pairing_passes _ _ g P). cbn [result]. eauto.
Qed.

(** *** When the unconstrained factory returns *)


End Further.

(** ** The further properties at work on concrete calls *)


(** Without [fractions], after a call of the other factory. *)
Lemma archive_float_types_after_import_witness :
  result (run_call (Call_get_mo_archive (num := Z) (info := string)
                      (Some [[1; 2]]) None None None)
            (run_calls (num := Z) (info := string) [Call_get_cmo_archive None None None None None 1]
               (fresh_process false)))
  = inr (MOArchive2d (Some [[1; 2]]) None None float float)
  /\
  float_types_of (MOArchive2d (num := Z) (info := string)
                    (Some [[1; 2]]) None None float float)
  = (float, float).
Proof.
  assert (H : result (run_call (Call_get_mo_archive (num := Z) (info := string)
                                  (Some [[1; 2]]) None None None)
                        (run_calls (num := Z) (info := string) [Call_get_cmo_archive None None None None None 1]
                           (fresh_process false)))
              = inr (MOArchive2d (Some [[1; 2]]) None None float float))
    by reflexivity.
  split; [exact H|].
  exact (archive_float_types_after_import false _ _ _ H).
Defined.

(** [get_mo_archive.hypervolume_final_float_type = float] assigned before the
    first call, with [fractions] imported: the archive gets [float] for the
    final type and [Fraction] for the computation. *)
Lemma set_attribute_is_kept_witness :
  lookup_attr hypervolume_final_float_type
    (attrs_of F_get_mo_archive
       (Globals true (FuncAttrs (Some float) None) (FuncAttrs None None)))
  = Some float
  /\
  callee (Call_get_mo_archive (num := Z) (info := string) None None None None)
  = F_get_mo_archive
  /\
  result (run_call (Call_get_mo_archive (num := Z) (info := string)
                      None None None None)
            (run_calls (num := Z) (info := string) [Call_get_mo_archive None (Some [1; 2; 3]) None None]
               (Globals true (FuncAttrs (Some float) None) (FuncAttrs None None))))
  = inr (MOArchive2d None None None float Fraction)
  /\
  float_type_of hypervolume_final_float_type
    (MOArchive2d (num := Z) (info := string) None None None float Fraction)
  = float.
Proof.
  assert (H : result (run_call (Call_get_mo_archive (num := Z) (info := string)
                                  None None None None)
                        (run_calls (num := Z) (info := string)
                           [Call_get_mo_archive None (Some [1; 2; 3]) None None]
                           (Globals true (FuncAttrs (Some float) None)
                              (FuncAttrs None None))))
              = inr (MOArchive2d None None None float Fraction))
    by reflexivity.
  split; [reflexivity|]. split; [reflexivity|]. split; [exact H|].
  exact (proj2 (set_attribute_is_kept (num := Z) (info := string)
                  F_get_mo_archive hypervolume_final_float_type float
                  [Call_get_mo_archive None (Some [1; 2; 3]) None None]
                  (Call_get_mo_archive None None None None) _
                  (Globals true (FuncAttrs (Some float) None)
                     (FuncAttrs None None))
                  eq_refl eq_refl H)).
Defined.

(** Five objectives, two declared, on the constrained factory. *)
Lemma returned_archive_matches_data_witness :
  result (run_call (Call_get_cmo_archive (num := Z) (info := string)
                      (Some [[1; 2; 3; 4; 5]]) (Some [[0]]) (Some [9; 9; 9; 9; 9])
                      None (Some 2) 1) (fresh_process true))
  = inr (CMOArchive (Some [[1; 2; 3; 4; 5]]) (Some [[0]]) (Some [9; 9; 9; 9; 9])
           None 5 1 Fraction Fraction)
  /\
  dimension_of (CMOArchive (num := Z) (info := string)
                  (Some [[1; 2; 3; 4; 5]]) (Some [[0]]) (Some [9; 9; 9; 9; 9])
                  None 5 1 Fraction Fraction)
  = len [9; 9; 9; 9; 9].
Proof.
  assert (H : result (run_call (Call_get_cmo_archive (num := Z) (info := string)
                                  (Some [[1; 2; 3; 4; 5]]) (Some [[0]])
                                  (Some [9; 9; 9; 9; 9]) None (Some 2) 1)
                        (fresh_process true))
              = inr (CMOArchive (Some [[1; 2; 3; 4; 5]]) (Some [[0]])
                       (Some [9; 9; 9; 9; 9]) None 5 1 Fraction Fraction))
    by reflexivity.
  split; [exact H|].
  destruct (returned_archive_matches_data _ _ _ H) as (_ & B & _).
  exact (B [9; 9; 9; 9; 9] eq_refl).
Defined.

Lemma declared_n_obj_is_only_a_hint_witness :
  (is_None_or_empty (Some [[1; 2; 3]]) = false \/ @None (list Z) <> None)
  /\
  result (get_mo_archive (num := Z) (info := string) (Some [[1; 2; 3]]) None None
            (Some 2) (fresh_process true))
  = result (get_mo_archive (num := Z) (info := string) (Some [[1; 2; 3]]) None
              None None (fresh_process true)).
Proof.
  assert (D : is_None_or_empty (Some [[1; 2; 3]]) = false \/ @None (list Z) <> None)
    by (left; reflexivity).
  split; [exact D|].
  exact (proj1 (declared_n_obj_is_only_a_hint (num := Z) (info := string)
                  (Some [[1; 2; 3]]) None None None (Some 2) None 1
                  (fresh_process true) D)).
Defined.

Lemma get_cmo_archive_follows_get_mo_archive_witness :
  result (get_mo_archive (num := Z) (info := string) (Some [[1; 2; 3]]) None None
            (Some 2) (fresh_process true))
  = inr (MOArchive3d (Some [[1; 2; 3]]) None None Fraction Fraction)
  /\
  paired (Some [[1; 2; 3]]) (Some [[0]])
  /\
  warnings (get_cmo_archive (num := Z) (info := string) (Some [[1; 2; 3]])
              (Some [[0]]) None None (Some 2) 1 (fresh_process true))
  = warnings (get_mo_archive (num := Z) (info := string) (Some [[1; 2; 3]]) None
                None (Some 2) (fresh_process true)).
Proof.
  assert (H : result (get_mo_archive (num := Z) (info := string)
                        (Some [[1; 2; 3]]) None None (Some 2) (fresh_process true))
              = inr (MOArchive3d (Some [[1; 2; 3]]) None None Fraction Fraction))
    by reflexivity.
  assert (P : paired (Some [[1; 2; 3]]) (Some [[0]])) by reflexivity.
  split; [exact H|]. split; [exact P|].
  exact (proj2 (get_cmo_archive_follows_get_mo_archive _ (Some [[0]]) _ _ _ 1 _ _
                  H P)).
Defined.

